(** * TokenLearner ViT: shape bookkeeping and forward pass

    A shallow embedding of the notebook "Learning to tokenize in Vision
    Transformers": [position_embedding], [mlp], [token_learner],
    [transformer] and [create_vit_classifier].

    The notebook builds a Keras functional model.  Two things happen to a
    Keras model and both are embedded here:

    - building: every layer is applied to a symbolic tensor and its static
      shape is computed (and checked); this is [Module Build], over Python
      integers ([Z]);
    - calling: the built graph is evaluated on arrays; this is [Module Fwd],
      over idealised real arithmetic ([R]) with the randomness of the
      training-only layers threaded explicitly.

    The Keras layers themselves are library code; their shape rules and their
    arithmetic are written out from their documented behaviour. *)

From Stdlib Require Import ZArith List Bool Lia Reals Lra Psatz.
Import ListNotations.

(** ** Hyperparameters *)

(** The notebook keeps its hyperparameters in module-level constants.  They
    are gathered in one record so that statements can range over them; the
    field names are the notebook's. *)
Record Config : Type := {
  INPUT_SHAPE    : Z * Z * Z;
  NUM_CLASSES    : Z;
  IMAGE_SIZE     : Z;
  PATCH_SIZE     : Z;
  PROJECTION_DIM : Z;
  NUM_HEADS      : Z;
  NUM_LAYERS     : Z;
  NUM_TOKENS     : Z
}.

(** [NUM_PATCHES = (IMAGE_SIZE // PATCH_SIZE) ** 2] *)
Definition NUM_PATCHES (cfg : Config) : Z :=
  ((IMAGE_SIZE cfg / PATCH_SIZE cfg) ^ 2)%Z.

(** [MLP_UNITS = [PROJECTION_DIM * 2, PROJECTION_DIM]] *)
Definition MLP_UNITS (cfg : Config) : list Z :=
  [PROJECTION_DIM cfg * 2; PROJECTION_DIM cfg]%Z.

(** The values the notebook assigns. *)
Definition notebook_config : Config := {|
  INPUT_SHAPE    := (32, 32, 3);
  NUM_CLASSES    := 10;
  IMAGE_SIZE     := 48;
  PATCH_SIZE     := 6;
  PROJECTION_DIM := 128;
  NUM_HEADS      := 4;
  NUM_LAYERS     := 4;
  NUM_TOKENS     := 4
|}%Z.

(** [range(n)] *)
Definition range (n : Z) : list Z := map Z.of_nat (seq 0 (Z.to_nat n)).

(** ** Building the model: static shapes *)

Module Build.
Local Open Scope Z_scope.

(** The shape of one sample; the leading batch axis ([None] in Keras) is
    left out. *)
Definition shape := list Z.

Inductive build_error : Type :=
| BadRank
| ConvOutputNonPositive
| ReshapeSizeMismatch
| ReshapeTwoUnknown
| MergeShapeMismatch
| InvalidArgument.

(** A build step either yields a value or raises. *)
Inductive result (A : Type) : Type :=
| Ok (a : A)
| Err (e : build_error).
Arguments Ok {A} a.
Arguments Err {A} e.

Definition bind {A B : Type} (m : result A) (k : A -> result B) : result B :=
  match m with
  | Ok a => k a
  | Err e => Err e
  end.

Notation "x <- m ;; k" := (bind m (fun x => k))
  (at level 61, m at next level, right associativity).

Definition is_ok {A : Type} (m : result A) : bool :=
  match m with Ok _ => true | Err _ => false end.

Inductive padding := VALID | SAME.

(** Keras [conv_output_length] with dilation 1. *)
Definition conv_output_length (input_length filter_size : Z) (p : padding)
    (stride : Z) : Z :=
  let output_length :=
    match p with
    | SAME => input_length
    | VALID => input_length - filter_size + 1
    end in
  (output_length + stride - 1) / stride.

(** [layers.Conv2D(filters, kernel_size, strides, padding)]: the layer is
    not created for a number of filters that is not positive, and a
    spatial dimension that comes out non-positive is rejected. *)
Definition Conv2D (filters : Z) (kernel_size strides : Z * Z) (p : padding)
    (s : shape) : result shape :=
  if filters <=? 0 then Err InvalidArgument
  else
    match s with
    | [h; w; _] =>
        let h' := conv_output_length h (fst kernel_size) p (fst strides) in
        let w' := conv_output_length w (snd kernel_size) p (snd strides) in
        if (h' <=? 0) || (w' <=? 0) then Err ConvOutputNonPositive
        else Ok [h'; w'; filters]
    | _ => Err BadRank
    end.

Definition prod (s : shape) : Z := fold_right Z.mul 1 s.

(** The product of the known target dimensions and the positions of the
    unknown ([-1]) ones. *)
Fixpoint known_unknown (target : shape) (index : nat) : Z * list nat :=
  match target with
  | [] => (1, [])
  | dim :: rest =>
      let '(known, unknown) := known_unknown rest (S index) in
      if dim <? 0 then (known, index :: unknown) else (known * dim, unknown)
  end.

Fixpoint set_dim (target : shape) (index : nat) (v : Z) : shape :=
  match target, index with
  | [], _ => []
  | _ :: rest, O => v :: rest
  | dim :: rest, S i => dim :: set_dim rest i v
  end.

(** [layers.Reshape(target)]: at most one dimension may be [-1]; it is
    inferred from the input size, which must be a multiple of the known
    part; without [-1] the sizes must agree. *)
Definition Reshape (target : shape) (s : shape) : result shape :=
  let '(known, unknown) := known_unknown target 0 in
  let original := prod s in
  match unknown with
  | [] => if original =? known then Ok target else Err ReshapeSizeMismatch
  | [index] =>
      if (known =? 0) || negb (original mod known =? 0)
      then Err ReshapeSizeMismatch
      else Ok (set_dim target index (original / known))
  | _ => Err ReshapeTwoUnknown
  end.

(** [layers.Permute((2, 1))] *)
Definition Permute21 (s : shape) : result shape :=
  match s with
  | [a; b] => Ok [b; a]
  | _ => Err BadRank
  end.

Definition LayerNormalization (s : shape) : shape := s.
Definition Dropout (s : shape) : shape := s.

(** Replacing the last dimension. *)
Fixpoint with_last_dim (units : Z) (s : shape) : result shape :=
  match s with
  | [] => Err BadRank
  | [_] => Ok [units]
  | d :: rest => r <- with_last_dim units rest ;; Ok (d :: r)
  end.

(** [layers.Dense(units)] acts on the last axis; a negative number of
    units is refused. *)
Definition Dense (units : Z) (s : shape) : result shape :=
  if units <? 0 then Err InvalidArgument else with_last_dim units s.

(** [layers.MultiHeadAttention(...)(query, value)]: the output has the
    shape of the query.  The layer's own arguments ([num_heads],
    [key_dim]) do not enter this rule; the statements about whole models
    take them positive. *)
Definition MultiHeadAttention (query value : shape) : result shape :=
  match query, value with
  | [_; _], [_; _] => Ok query
  | _, _ => Err BadRank
  end.

(** Broadcasting of two shapes of equal rank, as done by [layers.Add], by
    [+] and by [*]: a dimension 1 stretches, other dimensions must agree. *)
Fixpoint broadcast (s1 s2 : shape) : result shape :=
  match s1, s2 with
  | [], [] => Ok []
  | i :: r1, j :: r2 =>
      d <- (if i =? 1 then Ok j
            else if j =? 1 then Ok i
            else if i =? j then Ok i
            else Err MergeShapeMismatch) ;;
      r <- broadcast r1 r2 ;;
      Ok (d :: r)
  | _, _ => Err BadRank
  end.

Definition Add (s1 s2 : shape) : result shape := broadcast s1 s2.

(** [layers.GlobalAvgPool1D()] *)
Definition GlobalAvgPool1D (s : shape) : result shape :=
  match s with
  | [_; d] => Ok [d]
  | _ => Err BadRank
  end.

(** [t[..., tf.newaxis]] *)
Definition newaxis (s : shape) : shape := s ++ [1].

(** [tf.reduce_mean(t, axis=2)]; axis 2 of the batched tensor is axis 1 of
    the sample. *)
Definition reduce_mean_axis2 (s : shape) : result shape :=
  match s with
  | [k; _; c] => Ok [k; c]
  | _ => Err BadRank
  end.

(** The preprocessing layers of [data_augmentation]. *)
Definition Rescaling (s : shape) : result shape := Ok s.

Definition Resizing (height width : Z) (s : shape) : result shape :=
  match s with
  | [_; _; c] => Ok [height; width; c]
  | _ => Err BadRank
  end.

(** A crop window must have a positive height and width. *)
Definition RandomCrop (height width : Z) (s : shape) : result shape :=
  if (height <=? 0) || (width <=? 0) then Err InvalidArgument
  else
    match s with
    | [_; _; c] => Ok [height; width; c]
    | _ => Err BadRank
    end.

Definition RandomFlip (s : shape) : result shape := Ok s.

(** [data_augmentation], a [keras.Sequential]. *)
Definition data_augmentation (cfg : Config) (s : shape) : result shape :=
  x <- Rescaling s ;;
  x <- Resizing (fst (fst (INPUT_SHAPE cfg)) + 20)
         (fst (fst (INPUT_SHAPE cfg)) + 20) x ;;
  x <- RandomCrop (IMAGE_SIZE cfg) (IMAGE_SIZE cfg) x ;;
  RandomFlip x.

(** [layers.Embedding(input_dim, output_dim)]: both sizes must be
    positive; every index gets a row of width [output_dim]. *)
Definition Embedding (input_dim output_dim : Z) (indices : shape)
    : result shape :=
  if (input_dim <=? 0) || (output_dim <=? 0) then Err InvalidArgument
  else Ok (indices ++ [output_dim]).

(** [position_embedding]: the embedding table has [num_patches] rows of
    width [projection_dim]; it is added to the projected patches. *)
Definition position_embedding (cfg : Config) (projected_patches : shape)
    : result shape :=
  let positions := [NUM_PATCHES cfg] in
  encoded_positions <-
    Embedding (NUM_PATCHES cfg) (PROJECTION_DIM cfg) positions ;;
  broadcast projected_patches encoded_positions.

(** [mlp]: a Dense layer and a Dropout per entry of [hidden_units]. *)
Fixpoint mlp (x : shape) (hidden_units : list Z) : result shape :=
  match hidden_units with
  | [] => Ok x
  | units :: rest =>
      x1 <- Dense units x ;;
      mlp (Dropout x1) rest
  end.

Definition last_dim (s : shape) : Z := last s 0.

(** [token_learner] *)
Definition token_learner (inputs : shape) (number_of_tokens : Z)
    : result shape :=
  let x := LayerNormalization inputs in
  c1 <- Conv2D number_of_tokens (3, 3) (1, 1) SAME x ;;
  c2 <- Conv2D number_of_tokens (3, 3) (1, 1) SAME c1 ;;
  c3 <- Conv2D number_of_tokens (3, 3) (1, 1) SAME c2 ;;
  c4 <- Conv2D number_of_tokens (3, 3) (1, 1) SAME c3 ;;
  r <- Reshape [-1; number_of_tokens] c4 ;;
  attention_maps <- Permute21 r ;;
  let num_filters := last_dim inputs in
  inputs' <- Reshape [1; -1; num_filters] inputs ;;
  attended_inputs <- broadcast (newaxis attention_maps) inputs' ;;
  reduce_mean_axis2 attended_inputs.

(** [transformer] *)
Definition transformer (cfg : Config) (encoded_patches : shape)
    : result shape :=
  let x1 := LayerNormalization encoded_patches in
  attention_output <- MultiHeadAttention x1 x1 ;;
  x2 <- Add attention_output encoded_patches ;;
  let x3 := LayerNormalization x2 in
  x4 <- mlp x3 (MLP_UNITS cfg) ;;
  Add x4 x2.

(** The patch projection at the head of [create_vit_classifier]: a strided
    convolution followed by a reshape to a token sequence. *)
Definition projected_patches (cfg : Config) (augmented : shape)
    : result shape :=
  p <- Conv2D (PROJECTION_DIM cfg)
         (PATCH_SIZE cfg, PATCH_SIZE cfg) (PATCH_SIZE cfg, PATCH_SIZE cfg)
         VALID augmented ;;
  match p with
  | [h; w; c] => Reshape [h * w; c] p
  | _ => Err BadRank
  end.

(** The TokenLearner insertion inside the loop of
    [create_vit_classifier]; [int(math.sqrt(hh))] is the integer square
    root. *)
Definition insert_token_learner (encoded_patches : shape)
    (token_learner_units : Z) : result shape :=
  match encoded_patches with
  | [hh; c] =>
      let h := Z.sqrt hh in
      g <- Reshape [h; h; c] encoded_patches ;;
      token_learner g token_learner_units
  | _ => Err BadRank
  end.

(** One iteration of the loop [for i in range(NUM_LAYERS)]. *)
Definition layer_step (cfg : Config) (use_token_learner : bool)
    (token_learner_units : Z) (i : Z) (encoded_patches : shape)
    : result shape :=
  e <- transformer cfg encoded_patches ;;
  if use_token_learner && (i =? NUM_LAYERS cfg / 2)
  then insert_token_learner e token_learner_units
  else Ok e.

(** The loop, recording the value of [encoded_patches] at the end of each
    iteration. *)
Fixpoint layers_loop (cfg : Config) (use_token_learner : bool)
    (token_learner_units : Z) (indices : list Z) (encoded_patches : shape)
    : result (list shape) :=
  match indices with
  | [] => Ok []
  | i :: rest =>
      e <- layer_step cfg use_token_learner token_learner_units i
             encoded_patches ;;
      tr <- layers_loop cfg use_token_learner token_learner_units rest e ;;
      Ok (e :: tr)
  end.

(** What building the model determines: the token sequence entering the
    first block, the token sequence after every loop iteration and the
    shape of the model output. *)
Record Model : Type := {
  encoded_in  : shape;
  after_layer : list shape;
  outputs     : shape
}.

(** [create_vit_classifier] *)
Definition create_vit_classifier (cfg : Config) (use_token_learner : bool)
    (token_learner_units : Z) : result Model :=
  let '(ih, iw, ic) := INPUT_SHAPE cfg in
  let inputs := [ih; iw; ic] in
  augmented <- data_augmentation cfg inputs ;;
  projected <- projected_patches cfg augmented ;;
  encoded <- position_embedding cfg projected ;;
  let encoded := Dropout encoded in
  tr <- layers_loop cfg use_token_learner token_learner_units
          (range (NUM_LAYERS cfg)) encoded ;;
  let final := last tr encoded in
  let representation := LayerNormalization final in
  representation <- GlobalAvgPool1D representation ;;
  out <- Dense (NUM_CLASSES cfg) representation ;;
  Ok {| encoded_in := encoded; after_layer := tr; outputs := out |}.

End Build.

(** ** Calling the model: values *)

Module Fwd.
Local Open Scope R_scope.

(** Arrays are nested lists of reals.  A Keras layer treats the samples of
    a batch independently; every layer is given for one sample, and a batch
    is a list of samples. *)
Abbreviation vec  := (list R) (only parsing).               (* (D)       *)
Abbreviation mat  := (list (list R)) (only parsing).        (* (N, D)    *)
Abbreviation grid := (list (list (list R))) (only parsing). (* (h, w, D) *)

Definition tab {A : Type} (n : nat) (f : nat -> A) : list A :=
  map f (seq 0 n).

(** [rsum n f] is [f 0 + ... + f (n-1)]. *)
Fixpoint rsum (n : nat) (f : nat -> R) : R :=
  match n with
  | O => 0
  | S m => rsum m f + f m
  end.

Definition vget (v : vec) (i : nat) : R := nth i v 0.
Definition mget (m : mat) (i j : nat) : R := vget (nth i m []) j.
Definition gget (g : grid) (i j c : nat) : R := mget (nth i g []) j c.

(** Static shapes, read off an array. *)
Definition is_vec (d : nat) (v : vec) : Prop := length v = d.
Definition is_mat (n d : nat) (m : mat) : Prop :=
  length m = n /\ Forall (is_vec d) m.
Definition is_grid (h w d : nat) (g : grid) : Prop :=
  length g = h /\ Forall (is_mat w d) g.
Definition is_batch {A : Type} (P : A -> Prop) (b : nat) (xs : list A)
    : Prop :=
  length xs = b /\ Forall P xs.

Definition rows (g : grid) : nat := length g.
Definition cols (g : grid) : nat := length (hd [] g).
Definition chan (g : grid) : nat := length (hd [] (hd [] g)).
Definition width (m : mat) : nat := length (hd [] m).

(** What the embedding takes from the numeric library as given: the GELU
    activation, image resampling, and a random generator. *)
Class Primitives : Type := {
  gelu : R -> R;
  resize : nat -> nat -> grid -> grid;
  rng : Type;
  uniform : rng -> (nat -> R) * rng;
  randint : rng -> nat -> nat * rng
}.

Definition LAYER_NORM_EPS : R := 1 / 1000000.

Definition sigmoid (x : R) : R := 1 / (1 + exp (- x)).

Definition softmax (v : vec) : vec :=
  map (fun x => exp x / rsum (length v) (fun j => exp (vget v j))) v.

Definition linear (x : R) : R := x.

(** *** Broadcasting of [+] and [*] *)

Definition bdim (m n : nat) : nat := if Nat.eqb m 1 then n else m.
Definition bidx (m i : nat) : nat := if Nat.eqb m 1 then O else i.

Definition bvec (op : R -> R -> R) (a b : vec) : vec :=
  tab (bdim (length a) (length b)) (fun k =>
    op (vget a (bidx (length a) k)) (vget b (bidx (length b) k))).

Definition bmat (op : R -> R -> R) (a b : mat) : mat :=
  tab (bdim (length a) (length b)) (fun j =>
    bvec op (nth (bidx (length a) j) a []) (nth (bidx (length b) j) b [])).

Definition bten (op : R -> R -> R) (a b : list mat) : list mat :=
  tab (bdim (length a) (length b)) (fun i =>
    bmat op (nth (bidx (length a) i) a []) (nth (bidx (length b) i) b [])).

(** [layers.Add()([a, b])] *)
Definition Add (a b : mat) : mat := bmat Rplus a b.

(** *** Parameters *)

Record LayerNormParams : Type := {
  gamma : nat -> R;
  beta  : nat -> R
}.

(** A convolution kernel is indexed by row offset, column offset, input
    channel and filter. *)
Record ConvParams : Type := {
  kernel : nat -> nat -> nat -> nat -> R;
  cbias  : nat -> R
}.

Record DenseParams : Type := {
  dkernel : nat -> nat -> R;
  dbias   : nat -> R
}.

(** Projection kernels are indexed by input channel, head and position in
    the head; the output kernel by head, position in the head and output
    channel. *)
Record AttentionParams : Type := {
  Wq : nat -> nat -> nat -> R;  bq : nat -> nat -> R;
  Wk : nat -> nat -> nat -> R;  bk : nat -> nat -> R;
  Wv : nat -> nat -> nat -> R;  bv : nat -> nat -> R;
  Wo : nat -> nat -> nat -> R;  bo : nat -> R
}.

Record TokenLearnerParams : Type := {
  tl_norm  : LayerNormParams;
  tl_conv1 : ConvParams;
  tl_conv2 : ConvParams;
  tl_conv3 : ConvParams;
  tl_conv4 : ConvParams
}.

Record TransformerParams : Type := {
  norm1     : LayerNormParams;
  attention : AttentionParams;
  norm2     : LayerNormParams;
  mlp_dense : nat -> DenseParams
}.

Record ModelParams : Type := {
  patch_projection : ConvParams;
  position_table   : nat -> nat -> R;
  blocks           : nat -> TransformerParams;
  learner          : TokenLearnerParams;
  final_norm       : LayerNormParams;
  classifier       : DenseParams
}.

(** *** Deterministic layers *)

Definition mean (v : vec) : R :=
  rsum (length v) (vget v) / INR (length v).

(** [layers.LayerNormalization(epsilon)] over the channel axis. *)
Definition LayerNormalization (epsilon : R) (p : LayerNormParams) (v : vec)
    : vec :=
  let mu := mean v in
  let var := mean (map (fun x => (x - mu) * (x - mu)) v) in
  tab (length v) (fun c =>
    (vget v c - mu) / sqrt (var + epsilon) * gamma p c + beta p c).

Definition conv_output_length (n k : nat) (p : Build.padding) (s : nat)
    : nat :=
  match p with
  | Build.SAME => (n + (s - 1)) / s
  | Build.VALID => (n + 1 - k + (s - 1)) / s
  end.

(** Rows (columns) of zeros put before the input by [padding="same"]. *)
Definition pad_before (n k : nat) (p : Build.padding) (s : nat) : nat :=
  match p with
  | Build.SAME => ((conv_output_length n k p s - 1) * s + k - n) / 2
  | Build.VALID => O
  end.

(** The padded input at row [i], column [j]. *)
Definition padded (g : grid) (pi pj i j c : nat) : R :=
  if (Nat.ltb i pi) || (Nat.ltb j pj) then 0
  else gget g (i - pi) (j - pj) c.

(** [layers.Conv2D(filters, kernel_size, strides, padding, activation,
    use_bias)] *)
Definition Conv2D (filters : nat) (kernel_size strides : nat * nat)
    (pad : Build.padding) (activation : R -> R) (use_bias : bool)
    (p : ConvParams) (g : grid) : grid :=
  let '(kh, kw) := kernel_size in
  let '(sh, sw) := strides in
  let ph := pad_before (rows g) kh pad sh in
  let pw := pad_before (cols g) kw pad sw in
  tab (conv_output_length (rows g) kh pad sh) (fun i =>
    tab (conv_output_length (cols g) kw pad sw) (fun j =>
      tab filters (fun f =>
        activation
          (rsum kh (fun di => rsum kw (fun dj => rsum (chan g) (fun c =>
             padded g ph pw (i * sh + di) (j * sw + dj) c
             * kernel p di dj c f)))
           + (if use_bias then cbias p f else 0))))).

(** [layers.Dense(units, activation)] on one token. *)
Definition Dense (units : nat) (activation : R -> R) (p : DenseParams)
    (v : vec) : vec :=
  tab units (fun u =>
    activation (rsum (length v) (fun d => vget v d * dkernel p d u)
                + dbias p u)).

(** [layers.Reshape((-1, c))] of a grid: the rows one after the other. *)
Definition Reshape_tokens (g : grid) : mat := concat g.

(** [layers.Reshape((h, w, c))] of a token sequence. *)
Definition Reshape_grid (h w : nat) (m : mat) : grid :=
  tab h (fun i => tab w (fun j => nth (i * w + j) m [])).

(** [layers.Permute((2, 1))] of an array of static shape [(n, k)]. *)
Definition Permute21 (k : nat) (m : mat) : mat :=
  tab k (fun c => map (fun row => vget row c) m).

(** [t[..., tf.newaxis]] *)
Definition newaxis (m : mat) : list mat :=
  map (map (fun a => [a])) m.

(** [tf.reduce_mean(t, axis=2)] of an array of sample shape [(k, n, c)]. *)
Definition reduce_mean_axis2 (t : list mat) : mat :=
  map (fun m =>
    tab (width m) (fun c =>
      rsum (length m) (fun p => mget m p c) / INR (length m))) t.

(** [layers.GlobalAvgPool1D()] *)
Definition GlobalAvgPool1D (m : mat) : vec :=
  tab (width m) (fun d =>
    rsum (length m) (fun i => mget m i d) / INR (length m)).

(** [position_embedding]: [positions] is [0 .. num_patches-1], the
    embedding looks each position up in its table, and the result is added
    to the projected patches. *)
Definition position_embedding (table : nat -> nat -> R)
    (projected_patches : mat) (num_patches projection_dim : nat) : mat :=
  let positions := seq 0 num_patches in
  let encoded_positions :=
    map (fun pos => tab projection_dim (fun d => table pos d)) positions in
  bmat Rplus projected_patches encoded_positions.

(** *** TokenLearner *)

Section WithPrimitives.
Context {prim : Primitives}.

(** The [keras.Sequential] inside [token_learner]: four convolutions, a
    reshape and a permutation. *)
Definition attention_maps (p : TokenLearnerParams) (number_of_tokens : nat)
    (x : grid) : mat :=
  let conv act q :=
    Conv2D number_of_tokens (3, 3)%nat (1, 1)%nat Build.SAME act false q in
  Permute21 number_of_tokens
    (Reshape_tokens
       (conv sigmoid (tl_conv4 p)
          (conv gelu (tl_conv3 p)
             (conv gelu (tl_conv2 p)
                (conv gelu (tl_conv1 p) x))))).

(** [token_learner] *)
Definition token_learner (p : TokenLearnerParams) (inputs : grid)
    (number_of_tokens : nat) : mat :=
  let x := map (map (LayerNormalization LAYER_NORM_EPS (tl_norm p))) inputs in
  let attention_maps := attention_maps p number_of_tokens x in
  (* [Reshape((1, -1, num_filters))]: one block holding the rows in order *)
  let inputs := [Reshape_tokens inputs] in
  let attended_inputs := bten Rmult (newaxis attention_maps) inputs in
  reduce_mean_axis2 attended_inputs.

(** *** Layers that draw random numbers *)

(** A computation that may advance the random generator. *)
Definition M (A : Type) : Type := rng -> A * rng.

Definition ret {A : Type} (a : A) : M A := fun g => (a, g).

Definition bind {A B : Type} (m : M A) (k : A -> M B) : M B :=
  fun g => let '(a, g') := m g in k a g'.

Notation "x <- m ;; k" := (bind m (fun x => k))
  (at level 61, m at next level, right associativity).

Fixpoint mapM {A B : Type} (f : A -> M B) (l : list A) : M (list B) :=
  match l with
  | [] => ret []
  | a :: rest =>
      b <- f a ;;
      bs <- mapM f rest ;;
      ret (b :: bs)
  end.

(** [layers.Dropout(rate)]: the identity unless training; when training,
    each entry is zeroed with probability [rate] and the others are scaled
    by [1 / (1 - rate)]. *)
Definition Dropout (rate : R) (training : bool) (v : vec) : M vec :=
  if training then
    fun g =>
      let '(u, g') := uniform g in
      (tab (length v) (fun i =>
         if Rlt_dec (u i) rate then 0 else vget v i / (1 - rate)), g')
  else ret v.

(** [layers.RandomCrop(height, width)]: when training and the image is
    at least as large as the window, a window at a random offset; in every
    other case a deterministic resampling. *)
Definition RandomCrop (height width : nat) (training : bool) (img : grid)
    : M grid :=
  if training && Nat.leb height (rows img) && Nat.leb width (cols img) then
    fun g =>
      let '(off_h, g1) := randint g (rows img - height + 1) in
      let '(off_w, g2) := randint g1 (cols img - width + 1) in
      (tab height (fun i =>
         tab width (fun j => nth (off_w + j) (nth (off_h + i) img []) [])),
       g2)
  else ret (resize height width img).

(** [layers.RandomFlip("horizontal")]: only when training. *)
Definition RandomFlip (training : bool) (img : grid) : M grid :=
  if training then
    fun g =>
      let '(u, g') := uniform g in
      ((if Rlt_dec (u O) (1 / 2) then map (@rev vec) img else img), g')
  else ret img.

(** [layers.Rescaling(scale)] *)
Definition Rescaling (scale : R) (img : grid) : grid :=
  map (map (map (fun x => x * scale))) img.

(** [layers.Resizing(height, width)] *)
Definition Resizing (height width : nat) (img : grid) : grid :=
  resize height width img.

(** [data_augmentation] *)
Definition data_augmentation (cfg : Config) (training : bool) (img : grid)
    : M grid :=
  let x := Rescaling (1 / 255) img in
  let x := Resizing (Z.to_nat (fst (fst (INPUT_SHAPE cfg)) + 20))
                    (Z.to_nat (fst (fst (INPUT_SHAPE cfg)) + 20)) x in
  x <- RandomCrop (Z.to_nat (IMAGE_SIZE cfg)) (Z.to_nat (IMAGE_SIZE cfg))
         training x ;;
  RandomFlip training x.

(** *** Multi-head attention *)

(** The arguments of [layers.MultiHeadAttention]; [key_dim] is the size of
    each attention head for query, key and (by default) value. *)
Record AttentionLayer : Type := {
  num_heads : nat;
  key_dim   : nat;
  dropout   : R
}.

(** The per-head projection of a token sequence: [(heads, N, dim)]. *)
Definition project (W : nat -> nat -> nat -> R) (b : nat -> nat -> R)
    (heads dim : nat) (x : mat) : list mat :=
  tab heads (fun h =>
    map (fun token =>
      tab dim (fun e =>
        rsum (length token) (fun d => vget token d * W d h e) + b h e)) x).

Definition dot (a b : vec) : R :=
  rsum (length a) (fun e => vget a e * vget b e).

(** The attention weights [(heads, Nq, Nk)]: scaled dot products of every
    query with every key, normalised by a softmax over the keys.  No
    attention mask is passed by the notebook. *)
Definition attention_scores (L : AttentionLayer) (q k : list mat)
    : list mat :=
  tab (num_heads L) (fun h =>
    map (fun qi =>
      softmax
        (map (fun kj =>
           dot (map (fun a => a * (1 / sqrt (INR (key_dim L)))) qi) kj)
           (nth h k []))) (nth h q [])).

Definition query_heads (L : AttentionLayer) (p : AttentionParams)
    (query : mat) : list mat :=
  project (Wq p) (bq p) (num_heads L) (key_dim L) query.

Definition key_heads (L : AttentionLayer) (p : AttentionParams)
    (key : mat) : list mat :=
  project (Wk p) (bk p) (num_heads L) (key_dim L) key.

Definition value_heads (L : AttentionLayer) (p : AttentionParams)
    (value : mat) : list mat :=
  project (Wv p) (bv p) (num_heads L) (key_dim L) value.

(** [layers.MultiHeadAttention(num_heads, key_dim, dropout)(query, value)];
    the key is the value, and the output has the width of the query. *)
Definition MultiHeadAttention (L : AttentionLayer) (p : AttentionParams)
    (training : bool) (query value : mat) : M mat :=
  let q := query_heads L p query in
  let k := key_heads L p value in
  let v := value_heads L p value in
  let scores := attention_scores L q k in
  scores <- mapM (mapM (Dropout (dropout L) training)) scores ;;
  let context :=
    tab (num_heads L) (fun h =>
      map (fun w =>
        tab (key_dim L) (fun e =>
          rsum (length w) (fun j => vget w j * mget (nth h v []) j e)))
        (nth h scores [])) in
  ret (tab (length query) (fun i =>
         tab (width query) (fun d =>
           rsum (num_heads L) (fun h => rsum (key_dim L) (fun e =>
             mget (nth h context []) i e * Wo p h e d)) + bo p d))).

(** *** Transformer block *)

(** [mlp]: [Dense(units, gelu)] then [Dropout] for each entry of
    [hidden_units]; [index] numbers the dense layers. *)
Fixpoint mlp (p : nat -> DenseParams) (training : bool) (index : nat)
    (x : mat) (dropout_rate : R) (hidden_units : list Z) : M mat :=
  match hidden_units with
  | [] => ret x
  | units :: rest =>
      let x := map (Dense (Z.to_nat units) gelu (p index)) x in
      x <- mapM (Dropout dropout_rate training) x ;;
      mlp p training (S index) x dropout_rate rest
  end.

(** The attention layer that [transformer] creates. *)
Definition transformer_attention (cfg : Config) : AttentionLayer := {|
  num_heads := Z.to_nat (NUM_HEADS cfg);
  key_dim   := Z.to_nat (PROJECTION_DIM cfg);
  dropout   := 1 / 10
|}.

(** [transformer] *)
Definition transformer (cfg : Config) (p : TransformerParams)
    (training : bool) (encoded_patches : mat) : M mat :=
  let x1 := map (LayerNormalization LAYER_NORM_EPS (norm1 p))
              encoded_patches in
  attention_output <-
    MultiHeadAttention (transformer_attention cfg) (attention p) training
      x1 x1 ;;
  let x2 := Add attention_output encoded_patches in
  let x3 := map (LayerNormalization LAYER_NORM_EPS (norm2 p)) x2 in
  x4 <- mlp (mlp_dense p) training 0 x3 (1 / 10) (MLP_UNITS cfg) ;;
  ret (Add x4 x2).

(** *** The classifier *)

(** One iteration of the loop [for i in range(NUM_LAYERS)]. *)
Definition layer_step (cfg : Config) (p : ModelParams)
    (use_token_learner : bool) (token_learner_units : Z) (training : bool)
    (i : Z) (encoded_patches : mat) : M mat :=
  encoded_patches <-
    transformer cfg (blocks p (Z.to_nat i)) training encoded_patches ;;
  if use_token_learner && (i =? NUM_LAYERS cfg / 2)%Z then
    let hh := length encoded_patches in
    let h := Nat.sqrt hh in
    let encoded_patches := Reshape_grid h h encoded_patches in
    ret (token_learner (learner p) encoded_patches
           (Z.to_nat token_learner_units))
  else ret encoded_patches.

Fixpoint layers_loop (cfg : Config) (p : ModelParams)
    (use_token_learner : bool) (token_learner_units : Z) (training : bool)
    (indices : list Z) (encoded_patches : mat) : M mat :=
  match indices with
  | [] => ret encoded_patches
  | i :: rest =>
      e <- layer_step cfg p use_token_learner token_learner_units training
             i encoded_patches ;;
      layers_loop cfg p use_token_learner token_learner_units training
        rest e
  end.

(** The patch projection at the head of [create_vit_classifier]: a strided
    convolution followed by a reshape to a token sequence. *)
Definition projected_patches (cfg : Config) (p : ConvParams)
    (augmented : grid) : mat :=
  let P := Z.to_nat (PATCH_SIZE cfg) in
  let projected_patches :=
    Conv2D (Z.to_nat (PROJECTION_DIM cfg)) (P, P) (P, P) Build.VALID linear
      true p augmented in
  Reshape_tokens projected_patches.

(** From the augmented image to the token sequence entering the loop:
    projection, positional embedding, dropout. *)
Definition encoded_patches (cfg : Config) (p : ModelParams)
    (training : bool) (augmented : grid) : M mat :=
  let projected_patches :=
    projected_patches cfg (patch_projection p) augmented in
  let encoded_patches :=
    position_embedding (position_table p) projected_patches
      (Z.to_nat (NUM_PATCHES cfg)) (Z.to_nat (PROJECTION_DIM cfg)) in
  mapM (Dropout (1 / 10) training) encoded_patches.

(** The graph built by [create_vit_classifier], evaluated on one image. *)
Definition forward (cfg : Config) (use_token_learner : bool)
    (token_learner_units : Z) (p : ModelParams) (training : bool)
    (inputs : grid) : M vec :=
  augmented <- data_augmentation cfg training inputs ;;
  encoded_patches <- encoded_patches cfg p training augmented ;;
  encoded_patches <-
    layers_loop cfg p use_token_learner token_learner_units training
      (range (NUM_LAYERS cfg)) encoded_patches ;;
  let representation :=
    map (LayerNormalization LAYER_NORM_EPS (final_norm p)) encoded_patches in
  let representation := GlobalAvgPool1D representation in
  (* [Dense(NUM_CLASSES, activation="softmax")] *)
  ret (softmax (Dense (Z.to_nat (NUM_CLASSES cfg)) linear (classifier p)
                  representation)).

(** [layers.Input(shape=INPUT_SHAPE)]: the model accepts images of that
    shape only. *)
Definition has_input_shape (cfg : Config) (inputs : grid) : bool :=
  let '(ih, iw, ic) := INPUT_SHAPE cfg in
  Nat.eqb (length inputs) (Z.to_nat ih)
  && forallb (fun row =>
       Nat.eqb (length row) (Z.to_nat iw)
       && forallb (fun cell => Nat.eqb (length cell) (Z.to_nat ic)) row)
       inputs.

(** The model returned by [create_vit_classifier], called on one image:
    an image of another shape than [INPUT_SHAPE] is refused. *)
Definition create_vit_classifier (cfg : Config) (use_token_learner : bool)
    (token_learner_units : Z) (p : ModelParams) (training : bool)
    (inputs : grid) : M (option vec) :=
  if has_input_shape cfg inputs then
    y <- forward cfg use_token_learner token_learner_units p training
           inputs ;;
    ret (Some y)
  else ret None.

(** [model(batch, training)] *)
Definition call_on_batch (cfg : Config) (use_token_learner : bool)
    (token_learner_units : Z) (p : ModelParams) (training : bool)
    (batch : list grid) : M (option (list vec)) :=
  if forallb (has_input_shape cfg) batch then
    ys <- mapM (forward cfg use_token_learner token_learner_units p
                  training) batch ;;
    ret (Some ys)
  else ret None.

End WithPrimitives.

End Fwd.

(** ** Vocabulary of the statements *)

(** A value in the closed unit interval. *)
Definition in_unit (a : R) : Prop := (0 <= a <= 1)%R.

(** [min0 n f] is [min(0, min_p f p)] and [max0 n f] is
    [max(0, max_p f p)], for [p] below [n]. *)
Fixpoint min0 (n : nat) (f : nat -> R) : R :=
  match n with
  | O => 0%R
  | S m => Rmin (min0 m f) (f m)
  end.

Fixpoint max0 (n : nat) (f : nat -> R) : R :=
  match n with
  | O => 0%R
  | S m => Rmax (max0 m f) (f m)
  end.

(** The token sequence at the end of loop iteration [i] of a model with the
    TokenLearner: [n] tokens before the insertion index, [k] from it
    onward; and the one entering iteration [i]. *)
Definition tokens_after (cfg : Config) (n k i : Z) : Build.shape :=
  if (i <? NUM_LAYERS cfg / 2)%Z then [n; PROJECTION_DIM cfg]
  else [k; PROJECTION_DIM cfg].

Definition tokens_entering (cfg : Config) (n k i : Z) : Build.shape :=
  if (i <=? NUM_LAYERS cfg / 2)%Z then [n; PROJECTION_DIM cfg]
  else [k; PROJECTION_DIM cfg].

(** A computation that neither reads nor advances the random generator. *)
Definition deterministic {prim : Fwd.Primitives} {A : Type} (m : Fwd.M A)
    : Prop :=
  exists a, forall g, m g = (a, g).

(** ** Concrete instances *)

(** The notebook's configuration with an image size that the patch size
    does not divide. *)
Definition config_50 : Config := {|
  INPUT_SHAPE    := (32, 32, 3);
  NUM_CLASSES    := 10;
  IMAGE_SIZE     := 50;
  PATCH_SIZE     := 6;
  PROJECTION_DIM := 128;
  NUM_HEADS      := 4;
  NUM_LAYERS     := 4;
  NUM_TOKENS     := 4
|}%Z.

(** A small configuration: two channels, two heads. *)
Definition config_small : Config := {|
  INPUT_SHAPE    := (4, 4, 1);
  NUM_CLASSES    := 2;
  IMAGE_SIZE     := 4;
  PATCH_SIZE     := 2;
  PROJECTION_DIM := 2;
  NUM_HEADS      := 2;
  NUM_LAYERS     := 2;
  NUM_TOKENS     := 1
|}%Z.

(** A sigmoid approximation of GELU, nearest-neighbour resampling, and a
    counter as random generator. *)
Definition gelu_sigmoid (x : R) : R :=
  (x * Fwd.sigmoid (1702 / 1000 * x))%R.

Definition nearest (height width : nat) (img : list (list (list R)))
    : list (list (list R)) :=
  Fwd.tab height (fun i =>
    Fwd.tab width (fun j =>
      nth (j * Fwd.cols img / width)
        (nth (i * Fwd.rows img / height) img []) [])).

Definition counter_primitives : Fwd.Primitives := {|
  Fwd.gelu := gelu_sigmoid;
  Fwd.resize := nearest;
  Fwd.rng := nat;
  Fwd.uniform := fun g => (fun i => (1 / INR (g + i + 2))%R, S g);
  Fwd.randint := fun g n => (Nat.modulo g n, S g)
|}.

(** Parameters with every weight equal. *)
Definition flat_norm : Fwd.LayerNormParams := {|
  Fwd.gamma := fun _ => 1%R;
  Fwd.beta  := fun _ => 0%R
|}.

Definition flat_conv (w : R) : Fwd.ConvParams := {|
  Fwd.kernel := fun _ _ _ _ => w;
  Fwd.cbias  := fun _ => 0%R
|}.

Definition flat_learner (w : R) : Fwd.TokenLearnerParams := {|
  Fwd.tl_norm  := flat_norm;
  Fwd.tl_conv1 := flat_conv w;
  Fwd.tl_conv2 := flat_conv w;
  Fwd.tl_conv3 := flat_conv w;
  Fwd.tl_conv4 := flat_conv w
|}.

Definition flat_attention (w : R) : Fwd.AttentionParams := {|
  Fwd.Wq := fun _ _ _ => w;  Fwd.bq := fun _ _ => 0%R;
  Fwd.Wk := fun _ _ _ => w;  Fwd.bk := fun _ _ => 0%R;
  Fwd.Wv := fun _ _ _ => w;  Fwd.bv := fun _ _ => 0%R;
  Fwd.Wo := fun _ _ _ => w;  Fwd.bo := fun _ => 0%R
|}.

Definition flat_transformer (w : R) : Fwd.TransformerParams := {|
  Fwd.norm1     := flat_norm;
  Fwd.attention := flat_attention w;
  Fwd.norm2     := flat_norm;
  Fwd.mlp_dense := fun _ => {| Fwd.dkernel := fun _ _ => w;
                               Fwd.dbias := fun _ => 0%R |}
|}.

(** One-by-one grids with two channels; the second is the first with 1
    added to every channel. *)
Definition grid_a : list (list (list R)) := [[[0; 0]]]%R.
Definition grid_b : list (list (list R)) := [[[1; 1]]]%R.

(** A two-token sequence of width two. *)
Definition tokens_2x2 : list (list R) := [[1; 2]; [3; 4]]%R.

(** Discharges the shape of a literal array. *)
Ltac shape := repeat first [reflexivity | split | constructor].

(** The notebook's configuration with an image smaller than one patch. *)
Definition config_tiny_image : Config := {|
  INPUT_SHAPE    := (32, 32, 3);
  NUM_CLASSES    := 10;
  IMAGE_SIZE     := 4;
  PATCH_SIZE     := 6;
  PROJECTION_DIM := 128;
  NUM_HEADS      := 4;
  NUM_LAYERS     := 4;
  NUM_TOKENS     := 4
|}%Z.

(** A model all of whose weights are equal. *)
Definition flat_model (w : R) : Fwd.ModelParams := {|
  Fwd.patch_projection := flat_conv w;
  Fwd.position_table   := fun _ _ => w;
  Fwd.blocks           := fun _ => flat_transformer w;
  Fwd.learner          := flat_learner w;
  Fwd.final_norm       := flat_norm;
  Fwd.classifier       := {| Fwd.dkernel := fun _ _ => w;
                             Fwd.dbias := fun _ => 0%R |}
|}.

(** A 2 x 2 grid with two channels, and a four-token sequence of width
    two. *)
Definition grid_2x2 : list (list (list R)) :=
  [[[1; 2]; [3; 4]]; [[5; 6]; [7; 8]]]%R.
Definition tokens_4x2 : list (list R) :=
  [[1; 2]; [3; 4]; [5; 6]; [7; 8]]%R.

(** A transformer block whose attention output projection and last
    feed-forward layer are zero. *)
Definition zeroed_transformer : Fwd.TransformerParams := {|
  Fwd.norm1     := flat_norm;
  Fwd.attention := {|
    Fwd.Wq := fun _ _ _ => 1%R;  Fwd.bq := fun _ _ => 0%R;
    Fwd.Wk := fun _ _ _ => 1%R;  Fwd.bk := fun _ _ => 0%R;
    Fwd.Wv := fun _ _ _ => 1%R;  Fwd.bv := fun _ _ => 0%R;
    Fwd.Wo := fun _ _ _ => 0%R;  Fwd.bo := fun _ => 0%R |};
  Fwd.norm2     := flat_norm;
  Fwd.mlp_dense := fun index =>
    {| Fwd.dkernel := fun _ _ => if Nat.eqb index 1 then 0%R else 1%R;
       Fwd.dbias := fun _ => 0%R |}
|}.

(** Two 3 x 3 images with one channel that differ in the last row and the
    last column only, and a 4 x 4 image. *)
Definition image_3x3_a : list (list (list R)) :=
  [[[1]; [2]; [3]]; [[4]; [5]; [6]]; [[7]; [8]; [9]]]%R.
Definition image_3x3_b : list (list (list R)) :=
  [[[1]; [2]; [30]]; [[4]; [5]; [60]]; [[70]; [80]; [90]]]%R.
Definition image_4x4 : list (list (list R)) :=
  [[[1]; [2]; [3]; [4]]; [[5]; [6]; [7]; [8]];
   [[9]; [10]; [11]; [12]]; [[13]; [14]; [15]; [16]]]%R.

(** Parameters whose weights differ from entry to entry. *)
Definition ramp_norm : Fwd.LayerNormParams := {|
  Fwd.gamma := fun c => INR (c + 1);
  Fwd.beta  := fun c => (INR c / 2)%R
|}.

Definition ramp_conv : Fwd.ConvParams := {|
  Fwd.kernel := fun di dj c f =>
    (INR (di + 2 * dj + 3 * c + 1) / 10 - INR f / 4)%R;
  Fwd.cbias  := fun f => INR f
|}.

Definition ramp_learner : Fwd.TokenLearnerParams := {|
  Fwd.tl_norm  := ramp_norm;
  Fwd.tl_conv1 := ramp_conv;
  Fwd.tl_conv2 := ramp_conv;
  Fwd.tl_conv3 := ramp_conv;
  Fwd.tl_conv4 := ramp_conv
|}.

(** A 2 x 3 grid with two channels, and grids whose cells have equal
    channels: the second is the first with 4 added everywhere. *)
Definition grid_2x3 : list (list (list R)) :=
  [[[1; -2]; [3; 4]; [-5; 6]]; [[7; 8]; [9; -1]; [2; 5]]]%R.
Definition grid_flat_a : list (list (list R)) :=
  [[[1; 1]; [2; 2]]; [[3; 3]; [4; 4]]]%R.
Definition grid_flat_b : list (list (list R)) :=
  [[[5; 5]; [6; 6]]; [[7; 7]; [8; 8]]]%R.

Definition grid_2x3_b : list (list (list R)) :=
  [[[2; 0]; [-1; 3]; [4; 4]]; [[-6; 1]; [5; 2]; [3; -7]]]%R.

(** * Properties of the build *)

Module BuildFacts.
Import Build.
Local Open Scope Z_scope.

Lemma broadcast_same (s : shape) : broadcast s s = Ok s.
Proof.
  induction s as [|d s IH]; simpl; [reflexivity|].
  rewrite IH, Z.eqb_refl.
  destruct (d =? 1); reflexivity.
Qed.

Lemma conv_output_length_valid (n k : Z) :
  1 <= k -> conv_output_length n k VALID k = n / k.
Proof.
  intros Hk. unfold conv_output_length.
  f_equal. lia.
Qed.

Lemma conv_length_same_padding (n k : Z) :
  conv_output_length n k SAME 1 = n.
Proof.
  unfold conv_output_length.
  replace (n + 1 - 1) with n by lia. apply Z.div_1_r.
Qed.

Lemma Conv2D_same (filters h w c : Z) :
  1 <= filters -> 1 <= h -> 1 <= w ->
  Conv2D filters (3, 3) (1, 1) SAME [h; w; c] = Ok [h; w; filters].
Proof.
  intros Hf Hh Hw. unfold Conv2D.
  destruct (Z.leb_spec filters 0); [lia|]. simpl fst; simpl snd.
  rewrite !conv_length_same_padding.
  destruct (Z.leb_spec h 0); [lia|].
  destruct (Z.leb_spec w 0); [lia|]. reflexivity.
Qed.

(** A reshape without [-1] succeeds exactly when the sizes agree. *)
Lemma Reshape_known3 (a b c : Z) (s : shape) :
  0 <= a -> 0 <= b -> 0 <= c ->
  Reshape [a; b; c] s
  = if prod s =? a * b * c then Ok [a; b; c] else Err ReshapeSizeMismatch.
Proof.
  intros Ha Hb Hc. unfold Reshape. cbn [known_unknown].
  rewrite (proj2 (Z.ltb_ge c 0) Hc), (proj2 (Z.ltb_ge b 0) Hb),
    (proj2 (Z.ltb_ge a 0) Ha).
  replace (1 * c * b * a) with (a * b * c) by ring. reflexivity.
Qed.

Lemma Reshape_known2 (a b : Z) (s : shape) :
  0 <= a -> 0 <= b ->
  Reshape [a; b] s
  = if prod s =? a * b then Ok [a; b] else Err ReshapeSizeMismatch.
Proof.
  intros Ha Hb. unfold Reshape. cbn [known_unknown].
  rewrite (proj2 (Z.ltb_ge b 0) Hb), (proj2 (Z.ltb_ge a 0) Ha).
  replace (1 * b * a) with (a * b) by ring. reflexivity.
Qed.

(** [Reshape((-1, k))] of a grid with [k] channels. *)
Lemma Reshape_to_tokens (h w k : Z) :
  1 <= k -> Reshape [-1; k] [h; w; k] = Ok [h * w; k].
Proof.
  intros Hk. unfold Reshape. cbn [known_unknown].
  rewrite (proj2 (Z.ltb_ge k 0)) by lia. change (-1 <? 0) with true.
  cbv iota beta.
  replace (prod [h; w; k]) with (h * w * (1 * k)) by (cbn [prod fold_right]; ring).
  rewrite Z.mod_mul, Z.div_mul by lia.
  destruct (Z.eqb_spec (1 * k) 0); [lia|]. reflexivity.
Qed.

(** [Reshape((1, -1, c))] of a grid with [c] channels. *)
Lemma Reshape_block_shape (h w c : Z) :
  1 <= c -> Reshape [1; -1; c] [h; w; c] = Ok [1; h * w; c].
Proof.
  intros Hc. unfold Reshape. cbn [known_unknown].
  rewrite (proj2 (Z.ltb_ge c 0)) by lia.
  change (-1 <? 0) with true. change (1 <? 0) with false.
  cbv iota beta.
  replace (prod [h; w; c]) with (h * w * (1 * c * 1))
    by (cbn [prod fold_right]; ring).
  rewrite Z.mod_mul, Z.div_mul by lia.
  destruct (Z.eqb_spec (1 * c * 1) 0); [lia|]. reflexivity.
Qed.

Lemma token_learner_shape (h w c k : Z) :
  1 <= h -> 1 <= w -> 1 <= c -> 1 <= k ->
  token_learner [h; w; c] k = Ok [k; c].
Proof.
  intros Hh Hw Hc Hk. unfold token_learner, LayerNormalization.
  rewrite Conv2D_same by assumption. cbn [bind].
  rewrite Conv2D_same by assumption. cbn [bind].
  rewrite Conv2D_same by assumption. cbn [bind].
  rewrite Conv2D_same by assumption. cbn [bind].
  rewrite Reshape_to_tokens by assumption. cbn [bind Permute21].
  change (last_dim [h; w; c]) with c.
  rewrite Reshape_block_shape by assumption. cbn [bind newaxis app].
  cbn [broadcast bind].
  rewrite (Z.eqb_refl (h * w)). change (1 =? 1) with true.
  destruct (Z.eqb_spec k 1) as [->|_], (Z.eqb_spec (h * w) 1) as [->|_];
    reflexivity.
Qed.

Lemma transformer_shape (cfg : Config) (n : Z) :
  0 <= PROJECTION_DIM cfg ->
  transformer cfg [n; PROJECTION_DIM cfg] = Ok [n; PROJECTION_DIM cfg].
Proof.
  intros HD.
  unfold transformer, LayerNormalization, Add, MLP_UNITS.
  cbn [MultiHeadAttention bind mlp]. unfold Dense, Dropout.
  destruct (Z.ltb_spec (PROJECTION_DIM cfg * 2) 0); [lia|].
  cbn [with_last_dim bind].
  destruct (Z.ltb_spec (PROJECTION_DIM cfg) 0); [lia|].
  cbn [with_last_dim bind].
  rewrite !broadcast_same. cbn [bind]. apply broadcast_same.
Qed.

Lemma insert_token_learner_square (n c k : Z) :
  1 <= n -> 1 <= c -> 1 <= k ->
  insert_token_learner [n * n; c] k = Ok [k; c].
Proof.
  intros Hn Hc Hk. unfold insert_token_learner.
  rewrite Z.sqrt_square by lia.
  rewrite Reshape_known3 by lia.
  replace (prod [n * n; c]) with (n * n * c)
    by (cbn [prod fold_right]; ring).
  rewrite Z.eqb_refl. cbn [bind].
  apply token_learner_shape; assumption.
Qed.

Lemma insert_token_learner_not_square (N c k : Z) :
  0 <= N -> 1 <= c -> (forall r, r * r <> N) ->
  insert_token_learner [N; c] k = Err ReshapeSizeMismatch.
Proof.
  intros HN Hc Hsq. unfold insert_token_learner.
  pose proof (Z.sqrt_nonneg N).
  rewrite Reshape_known3 by lia.
  replace (prod [N; c]) with (N * c) by (cbn [prod fold_right]; ring).
  destruct (Z.eqb_spec (N * c) (Z.sqrt N * Z.sqrt N * c)) as [E|_];
    [|reflexivity].
  exfalso. apply (Hsq (Z.sqrt N)). nia.
Qed.

Lemma layer_step_tokens (cfg : Config) (n k i : Z) :
  1 <= n -> 1 <= PROJECTION_DIM cfg -> 1 <= k ->
  layer_step cfg true k i (tokens_entering cfg (n * n) k i)
  = Ok (tokens_after cfg (n * n) k i).
Proof.
  intros Hn Hd Hk. unfold layer_step, tokens_entering, tokens_after.
  destruct (Z.leb_spec i (NUM_LAYERS cfg / 2)) as [Hle|Hgt];
    rewrite transformer_shape by lia; cbn [bind andb].
  - destruct (Z.eqb_spec i (NUM_LAYERS cfg / 2)) as [E|NE].
    + rewrite insert_token_learner_square by assumption.
      destruct (Z.ltb_spec i (NUM_LAYERS cfg / 2)); [lia|reflexivity].
    + destruct (Z.ltb_spec i (NUM_LAYERS cfg / 2)); [reflexivity|lia].
  - destruct (Z.eqb_spec i (NUM_LAYERS cfg / 2)); [lia|].
    destruct (Z.ltb_spec i (NUM_LAYERS cfg / 2)); [lia|reflexivity].
Qed.

Lemma tokens_entering_next (cfg : Config) (n k : Z) (a : nat) :
  tokens_after cfg n k (Z.of_nat a) = tokens_entering cfg n k (Z.of_nat (S a)).
Proof.
  unfold tokens_after, tokens_entering.
  destruct (Z.ltb_spec (Z.of_nat a) (NUM_LAYERS cfg / 2)),
           (Z.leb_spec (Z.of_nat (S a)) (NUM_LAYERS cfg / 2));
    try reflexivity; lia.
Qed.

Lemma layers_loop_tokens (cfg : Config) (n k : Z) (len a : nat) :
  1 <= n -> 1 <= PROJECTION_DIM cfg -> 1 <= k ->
  layers_loop cfg true k (map Z.of_nat (seq a len))
    (tokens_entering cfg (n * n) k (Z.of_nat a))
  = Ok (map (fun i => tokens_after cfg (n * n) k (Z.of_nat i)) (seq a len)).
Proof.
  intros Hn Hd Hk. revert a.
  induction len as [|len IH]; intros a; [reflexivity|].
  cbn [seq map layers_loop].
  rewrite layer_step_tokens by assumption. cbn [bind].
  rewrite tokens_entering_next, IH. cbn [bind].
  rewrite <- tokens_entering_next. reflexivity.
Qed.

(** Without the TokenLearner every iteration is a plain block. *)
Lemma layers_loop_plain (cfg : Config) (use : bool) (k n : Z)
    (indices : list Z) :
  0 <= PROJECTION_DIM cfg ->
  (forall i, In i indices -> use && (i =? NUM_LAYERS cfg / 2) = false) ->
  layers_loop cfg use k indices [n; PROJECTION_DIM cfg]
  = Ok (repeat [n; PROJECTION_DIM cfg] (length indices)).
Proof.
  intros HD.
  induction indices as [|i rest IH]; intros H; [reflexivity|].
  cbn [layers_loop length repeat]. unfold layer_step.
  rewrite transformer_shape by exact HD. cbn [bind].
  rewrite (H i (or_introl eq_refl)). cbn [bind].
  rewrite IH by (intros j Hj; apply H; right; exact Hj).
  reflexivity.
Qed.

Lemma last_default (t : shape) (tr : list shape) (d1 d2 : shape) :
  last (t :: tr) d1 = last (t :: tr) d2.
Proof.
  revert t. induction tr as [|u tr IH]; intros t; [reflexivity|].
  change (last (u :: tr) d1 = last (u :: tr) d2). apply IH.
Qed.

Lemma last_cons_default (e : shape) (tr : list shape) (s : shape) :
  last (e :: tr) s = last tr e.
Proof.
  destruct tr as [|t tr]; [reflexivity|].
  change (last (t :: tr) s = last (t :: tr) e). apply last_default.
Qed.

Lemma layers_loop_app (cfg : Config) (use : bool) (k : Z)
    (xs ys : list Z) (s : shape) :
  layers_loop cfg use k (xs ++ ys) s
  = (tr1 <- layers_loop cfg use k xs s ;;
     tr2 <- layers_loop cfg use k ys (last tr1 s) ;;
     Ok (tr1 ++ tr2)).
Proof.
  revert s. induction xs as [|x xs IH]; intros s; cbn [app layers_loop bind].
  - cbn [last]. destruct (layers_loop cfg use k ys s); reflexivity.
  - destruct (layer_step cfg use k x s) as [e|err]; cbn [bind];
      [|reflexivity].
    rewrite IH.
    destruct (layers_loop cfg use k xs e) as [tr1|err]; cbn [bind];
      [|reflexivity].
    rewrite last_cons_default.
    destruct (layers_loop cfg use k ys (last tr1 e)); reflexivity.
Qed.

Lemma range_split (n m : Z) :
  0 <= m < n ->
  range n = range m ++ m :: map Z.of_nat
                             (seq (S (Z.to_nat m)) (Z.to_nat (n - m - 1))).
Proof.
  intros H. unfold range.
  replace (Z.to_nat n)
    with (Z.to_nat m + S (Z.to_nat (n - m - 1)))%nat by lia.
  rewrite seq_app, map_app. cbn [seq map Nat.add].
  rewrite Z2Nat.id by lia. reflexivity.
Qed.

Lemma In_range (n i : Z) : In i (range n) -> 0 <= i < n.
Proof.
  unfold range. rewrite in_map_iff. intros (j & <- & Hj).
  apply in_seq in Hj. lia.
Qed.

Lemma last_repeat (s d : shape) (n : nat) : last (repeat s n) s = s.
Proof.
  induction n as [|n IH]; [reflexivity|].
  cbn [repeat last]. destruct n; [reflexivity|]. exact IH.
Qed.

Lemma projected_patches_shape (cfg : Config) (H W C : Z) :
  1 <= PATCH_SIZE cfg -> PATCH_SIZE cfg <= H -> PATCH_SIZE cfg <= W ->
  1 <= PROJECTION_DIM cfg ->
  projected_patches cfg [H; W; C]
  = Ok [(H / PATCH_SIZE cfg) * (W / PATCH_SIZE cfg); PROJECTION_DIM cfg].
Proof.
  intros HP HH HW HD. unfold projected_patches, Conv2D.
  destruct (Z.leb_spec (PROJECTION_DIM cfg) 0); [lia|].
  simpl fst; simpl snd.
  rewrite !conv_output_length_valid by assumption.
  assert (1 <= H / PATCH_SIZE cfg)
    by (apply Z.div_le_lower_bound; lia).
  assert (1 <= W / PATCH_SIZE cfg)
    by (apply Z.div_le_lower_bound; lia).
  destruct (Z.leb_spec (H / PATCH_SIZE cfg) 0); [lia|].
  destruct (Z.leb_spec (W / PATCH_SIZE cfg) 0); [lia|].
  cbn [orb bind]. rewrite Reshape_known2 by nia.
  match goal with |- (if ?a =? ?b then _ else _) = _ =>
    replace a with b by (cbn [prod fold_right]; ring) end.
  rewrite Z.eqb_refl. reflexivity.
Qed.

Lemma projected_patches_too_small (cfg : Config) (H W C : Z) :
  1 <= PATCH_SIZE cfg -> 1 <= PROJECTION_DIM cfg -> 0 <= H -> 0 <= W ->
  H < PATCH_SIZE cfg \/ W < PATCH_SIZE cfg ->
  projected_patches cfg [H; W; C] = Err ConvOutputNonPositive.
Proof.
  intros HP HD H0 W0 Hsmall. unfold projected_patches, Conv2D.
  destruct (Z.leb_spec (PROJECTION_DIM cfg) 0); [lia|].
  simpl fst; simpl snd.
  rewrite !conv_output_length_valid by assumption.
  destruct Hsmall as [Hs|Hs].
  - rewrite (Z.div_small H) by lia. reflexivity.
  - rewrite (Z.div_small W) by lia.
    rewrite orb_true_r. reflexivity.
Qed.

(** A number whose integer square root does not square back to it is not
    a perfect square. *)
Lemma not_square_by_sqrt (N : Z) :
  Z.sqrt N * Z.sqrt N <> N -> forall r, r * r <> N.
Proof.
  intros H r E. apply H. subst N.
  rewrite <- (Z.abs_square r).
  rewrite Z.sqrt_square by apply Z.abs_nonneg. reflexivity.
Qed.

End BuildFacts.

(** * Properties of the arrays *)

Module ArrayFacts.
Import Fwd.
Local Open Scope R_scope.

Lemma tab_length {A : Type} (n : nat) (f : nat -> A) : length (tab n f) = n.
Proof. unfold tab. rewrite length_map, length_seq. reflexivity. Qed.

Lemma nth_tab {A : Type} (n i : nat) (f : nat -> A) (d : A) :
  (i < n)%nat -> nth i (tab n f) d = f i.
Proof.
  intros Hi. unfold tab.
  rewrite (nth_indep _ d (f O)) by (rewrite length_map, length_seq; exact Hi).
  rewrite map_nth, seq_nth by exact Hi. reflexivity.
Qed.

Lemma Forall_tab {A : Type} (P : A -> Prop) (n : nat) (f : nat -> A) :
  (forall i, (i < n)%nat -> P (f i)) -> Forall P (tab n f).
Proof.
  intros H. unfold tab. apply Forall_map, Forall_forall.
  intros i Hi. apply in_seq in Hi. apply H. lia.
Qed.

Lemma vget_nil (i : nat) : vget [] i = 0.
Proof. unfold vget. destruct i; reflexivity. Qed.

Lemma nth_map_rows {A : Type} (f : A -> R) (l : list A) (d : A) (i : nat) :
  (i < length l)%nat -> nth i (map f l) 0 = f (nth i l d).
Proof.
  intros Hi. rewrite (nth_indep _ 0 (f d)) by (rewrite length_map; exact Hi).
  apply map_nth.
Qed.

Lemma rsum_ext (n : nat) (f g : nat -> R) :
  (forall i, (i < n)%nat -> f i = g i) -> rsum n f = rsum n g.
Proof.
  induction n as [|n IH]; intros H; [reflexivity|].
  cbn [rsum]. rewrite IH, H by (intros; try apply H; lia). reflexivity.
Qed.

Lemma rsum_minus (n : nat) (f g : nat -> R) :
  rsum n f - rsum n g = rsum n (fun i => f i - g i).
Proof.
  induction n as [|n IH]; cbn [rsum]; [lra|]. rewrite <- IH. lra.
Qed.

Lemma rsum_bounds (n : nat) (f : nat -> R) (lo hi : R) :
  (forall i, (i < n)%nat -> lo <= f i <= hi) ->
  INR n * lo <= rsum n f <= INR n * hi.
Proof.
  induction n as [|n IH]; intros H.
  - cbn [rsum INR]. lra.
  - rewrite S_INR. cbn [rsum].
    assert (Hn : lo <= f n <= hi) by (apply H; lia).
    assert (Hr : INR n * lo <= rsum n f <= INR n * hi)
      by (apply IH; intros; apply H; lia).
    lra.
Qed.

Lemma rsum_pos (n : nat) (f : nat -> R) :
  (1 <= n)%nat -> (forall i, (i < n)%nat -> 0 < f i) -> 0 < rsum n f.
Proof.
  intros Hn H.
  assert (G : forall m, (m <= n)%nat -> 0 <= rsum m f).
  { induction m as [|m IH]; intros Hm; cbn [rsum]; [lra|].
    assert (0 < f m) by (apply H; lia).
    assert (0 <= rsum m f) by (apply IH; lia). lra. }
  destruct n as [|n]; [lia|]. cbn [rsum].
  assert (0 < f n) by (apply H; lia).
  assert (0 <= rsum n f) by (apply G; lia). lra.
Qed.

(** ** The saturating nonlinearity *)

Lemma sigmoid_range (x : R) : 0 < sigmoid x < 1.
Proof.
  unfold sigmoid. pose proof (exp_pos (- x)) as He.
  split.
  - apply Rdiv_lt_0_compat; lra.
  - apply (Rmult_lt_reg_r (1 + exp (- x))); [lra|].
    unfold Rdiv. rewrite Rmult_assoc, Rinv_l by lra. lra.
Qed.

(** ** Shapes *)

Lemma is_grid_cols (h w d : nat) (g : grid) :
  is_grid h w d g -> (1 <= h)%nat -> cols g = w.
Proof.
  intros [Hl Hf] Hh. unfold cols.
  destruct g as [|r g]; [simpl in Hl; lia|].
  apply Forall_inv in Hf. apply Hf.
Qed.

Lemma is_grid_chan (h w d : nat) (g : grid) :
  is_grid h w d g -> (1 <= h)%nat -> (1 <= w)%nat -> chan g = d.
Proof.
  intros [Hl Hf] Hh Hw. unfold chan.
  destruct g as [|r g]; [simpl in Hl; lia|].
  apply Forall_inv in Hf. destruct Hf as [Hr Hv].
  destruct r as [|v r]; [simpl in Hr; lia|].
  apply Forall_inv in Hv. exact Hv.
Qed.

Lemma is_mat_width (n d : nat) (m : mat) :
  is_mat n d m -> (1 <= n)%nat -> width m = d.
Proof.
  intros [Hl Hf] Hn. unfold width.
  destruct m as [|v m]; [simpl in Hl; lia|].
  apply Forall_inv in Hf. exact Hf.
Qed.

Lemma is_mat_nth (n d : nat) (m : mat) (i : nat) :
  is_mat n d m -> (i < n)%nat -> length (nth i m []) = d.
Proof.
  intros [Hl Hf] Hi. rewrite Forall_forall in Hf.
  apply Hf, nth_In. lia.
Qed.

Lemma is_mat_tab (n d : nat) (f : nat -> vec) :
  (forall i, (i < n)%nat -> length (f i) = d) -> is_mat n d (tab n f).
Proof.
  intros H. split; [apply tab_length|]. apply Forall_tab. exact H.
Qed.

Lemma is_grid_tab (h w d : nat) (f : nat -> mat) :
  (forall i, (i < h)%nat -> is_mat w d (f i)) -> is_grid h w d (tab h f).
Proof.
  intros H. split; [apply tab_length|]. apply Forall_tab. exact H.
Qed.

Lemma conv_output_length_same (n k : nat) :
  conv_output_length n k Build.SAME 1 = n.
Proof.
  unfold conv_output_length. cbn [Nat.sub].
  rewrite Nat.add_0_r. apply Nat.div_1_r.
Qed.

Lemma Conv2D_same_shape (filters : nat) (act : R -> R) (ub : bool)
    (p : ConvParams) (h w c : nat) (g : grid) :
  is_grid h w c g -> (1 <= h)%nat ->
  is_grid h w filters
    (Conv2D filters (3, 3)%nat (1, 1)%nat Build.SAME act ub p g).
Proof.
  intros Hg Hh. unfold Conv2D.
  rewrite !conv_output_length_same.
  rewrite (is_grid_cols _ _ _ _ Hg Hh).
  replace (rows g) with h by (symmetry; apply Hg).
  apply is_grid_tab. intros i _.
  apply is_mat_tab. intros j _. apply tab_length.
Qed.

(** Every entry of a convolution's output is a value of its activation. *)
Lemma Conv2D_entries (P : R -> Prop) (filters : nat) (ks st : nat * nat)
    (pad : Build.padding) (act : R -> R) (ub : bool) (p : ConvParams)
    (g : grid) :
  (forall x, P (act x)) ->
  Forall (Forall (Forall P)) (Conv2D filters ks st pad act ub p g).
Proof.
  intros H. unfold Conv2D. destruct ks as [kh kw], st as [sh sw].
  apply Forall_tab. intros i _. apply Forall_tab. intros j _.
  apply Forall_tab. intros f _. apply H.
Qed.

Lemma Reshape_tokens_shape (h w d : nat) (g : grid) :
  is_grid h w d g -> is_mat (h * w) d (Reshape_tokens g).
Proof.
  unfold Reshape_tokens. revert h.
  induction g as [|r g IH]; intros h [Hl Hf].
  - simpl in Hl. subst h. split; [reflexivity|constructor].
  - simpl in Hl. subst h.
    pose proof (Forall_inv Hf) as [Hr Hv].
    pose proof (Forall_inv_tail Hf) as Hf'.
    destruct (IH (length g) (conj eq_refl Hf')) as [Hl' Hv'].
    split.
    + cbn [concat]. rewrite length_app, Hl', Hr. reflexivity.
    + cbn [concat]. apply Forall_app. split; assumption.
Qed.

Lemma Reshape_tokens_entries (P : R -> Prop) (g : grid) :
  Forall (Forall (Forall P)) g -> Forall (Forall P) (Reshape_tokens g).
Proof.
  unfold Reshape_tokens. induction 1 as [|r g Hr _ IH]; cbn [concat].
  - constructor.
  - apply Forall_app. split; assumption.
Qed.

Lemma Permute21_shape (k n : nat) (m : mat) :
  length m = n -> is_mat k n (Permute21 k m).
Proof.
  intros Hm. unfold Permute21. apply is_mat_tab.
  intros c _. unfold is_vec. rewrite length_map. exact Hm.
Qed.

Lemma Permute21_get (k : nat) (m : mat) (c i : nat) :
  (c < k)%nat -> (i < length m)%nat ->
  mget (Permute21 k m) c i = mget m i c.
Proof.
  intros Hc Hi. unfold mget, Permute21.
  rewrite nth_tab by exact Hc. unfold vget at 1.
  rewrite (nth_map_rows _ m [] i Hi). reflexivity.
Qed.

Lemma Permute21_entries (P : R -> Prop) (k : nat) (m : mat) :
  P 0 -> Forall (Forall P) m -> Forall (Forall P) (Permute21 k m).
Proof.
  intros H0 Hm. unfold Permute21. apply Forall_tab. intros c _.
  apply Forall_map. apply Forall_impl with (2 := Hm).
  intros row Hrow. unfold vget.
  destruct (Nat.lt_ge_cases c (length row)) as [Hc|Hc].
  - rewrite Forall_forall in Hrow. apply Hrow, nth_In, Hc.
  - rewrite nth_overflow by exact Hc. exact H0.
Qed.

Lemma mget_entries (P : R -> Prop) (m : mat) (i j : nat) :
  P 0 -> Forall (Forall P) m -> P (mget m i j).
Proof.
  intros H0 Hm. unfold mget, vget.
  destruct (Nat.lt_ge_cases i (length m)) as [Hi|Hi].
  - rewrite Forall_forall in Hm.
    specialize (Hm (nth i m []) (nth_In _ _ Hi)).
    destruct (Nat.lt_ge_cases j (length (nth i m []))) as [Hj|Hj].
    + rewrite Forall_forall in Hm. apply Hm, nth_In, Hj.
    + rewrite nth_overflow by exact Hj. exact H0.
  - rewrite (nth_overflow m) by exact Hi. destruct j; exact H0.
Qed.

Lemma LayerNormalization_length (eps : R) (p : LayerNormParams) (v : vec) :
  length (LayerNormalization eps p v) = length v.
Proof. unfold LayerNormalization. apply tab_length. Qed.

Lemma LayerNormalization_mat (eps : R) (p : LayerNormParams) (n d : nat)
    (m : mat) :
  is_mat n d m -> is_mat n d (map (LayerNormalization eps p) m).
Proof.
  intros [Hl Hf]. split; [rewrite length_map; exact Hl|].
  apply Forall_map. apply Forall_impl with (2 := Hf).
  intros v Hv. unfold is_vec in *.
  rewrite LayerNormalization_length. exact Hv.
Qed.

Lemma LayerNormalization_grid (eps : R) (p : LayerNormParams) (h w d : nat)
    (g : grid) :
  is_grid h w d g ->
  is_grid h w d (map (map (LayerNormalization eps p)) g).
Proof.
  intros [Hl Hf]. split; [rewrite length_map; exact Hl|].
  apply Forall_map. apply Forall_impl with (2 := Hf).
  intros m. apply LayerNormalization_mat.
Qed.

(** ** Broadcasting *)

Lemma bdim_same (n : nat) : bdim n n = n.
Proof. unfold bdim. destruct (Nat.eqb n 1); reflexivity. Qed.

Lemma bdim_one_r (n : nat) : bdim n 1 = n.
Proof.
  unfold bdim. destruct (Nat.eqb_spec n 1) as [->|]; reflexivity.
Qed.

Lemma bidx_lt (n i : nat) : (i < n)%nat -> bidx n i = i.
Proof.
  intros Hi. unfold bidx. destruct (Nat.eqb_spec n 1); [lia|reflexivity].
Qed.

Lemma bmat_same_shape (op : R -> R -> R) (n d : nat) (a b : mat) :
  is_mat n d a -> is_mat n d b -> is_mat n d (bmat op a b).
Proof.
  intros Ha Hb. unfold bmat.
  rewrite (proj1 Ha), (proj1 Hb), bdim_same.
  apply is_mat_tab. intros j Hj. rewrite bidx_lt by exact Hj.
  unfold bvec. rewrite tab_length.
  rewrite (is_mat_nth _ _ _ _ Ha Hj), (is_mat_nth _ _ _ _ Hb Hj).
  apply bdim_same.
Qed.

(** ** Bounds of a weighted mean *)

Lemma min0_le_0 (n : nat) (f : nat -> R) : min0 n f <= 0.
Proof.
  induction n as [|n IH]; cbn [min0]; [lra|].
  pose proof (Rmin_l (min0 n f) (f n)). lra.
Qed.

Lemma min0_le (n : nat) (f : nat -> R) (i : nat) :
  (i < n)%nat -> min0 n f <= f i.
Proof.
  induction n as [|n IH]; intros Hi; [lia|]. cbn [min0].
  destruct (Nat.eq_dec i n) as [->|Hne].
  - apply Rmin_r.
  - pose proof (Rmin_l (min0 n f) (f n)).
    assert (min0 n f <= f i) by (apply IH; lia). lra.
Qed.

Lemma max0_ge_0 (n : nat) (f : nat -> R) : 0 <= max0 n f.
Proof.
  induction n as [|n IH]; cbn [max0]; [lra|].
  pose proof (Rmax_l (max0 n f) (f n)). lra.
Qed.

Lemma max0_ge (n : nat) (f : nat -> R) (i : nat) :
  (i < n)%nat -> f i <= max0 n f.
Proof.
  induction n as [|n IH]; intros Hi; [lia|]. cbn [max0].
  destruct (Nat.eq_dec i n) as [->|Hne].
  - apply Rmax_r.
  - pose proof (Rmax_l (max0 n f) (f n)).
    assert (f i <= max0 n f) by (apply IH; lia). lra.
Qed.

(** A mean of products weight * value, with weights in [0,1], stays in
    any interval around 0 that holds the values. *)
Lemma weighted_mean_bounds (n : nat) (a x : nat -> R) (lo hi : R) :
  (1 <= n)%nat -> lo <= 0 <= hi ->
  (forall i, (i < n)%nat -> in_unit (a i)) ->
  (forall i, (i < n)%nat -> lo <= x i <= hi) ->
  lo <= rsum n (fun i => a i * x i) / INR n <= hi.
Proof.
  intros Hn H0 Ha Hx.
  assert (Hpos : 0 < INR n) by (apply lt_0_INR; lia).
  assert (Hb : INR n * lo <= rsum n (fun i => a i * x i) <= INR n * hi).
  { apply rsum_bounds. intros i Hi.
    specialize (Ha i Hi). specialize (Hx i Hi). unfold in_unit in Ha.
    split; nra. }
  split.
  - apply (Rmult_le_reg_l (INR n)); [exact Hpos|].
    unfold Rdiv. rewrite (Rmult_comm (rsum _ _)), <- Rmult_assoc,
      Rinv_r by lra. lra.
  - apply (Rmult_le_reg_l (INR n)); [exact Hpos|].
    unfold Rdiv. rewrite (Rmult_comm (rsum _ _)), <- Rmult_assoc,
      Rinv_r by lra. lra.
Qed.

(** The flattened grid holds the grid's cells in row-major order. *)
Lemma Reshape_tokens_get (h w d : nat) (g : list (list (list R)))
    (i j c : nat) :
  is_grid h w d g -> (i < h)%nat -> (j < w)%nat ->
  mget (Reshape_tokens g) (i * w + j) c = gget g i j c.
Proof.
  unfold mget, gget, mget, Reshape_tokens. revert h i.
  induction g as [|r g IH]; intros h i [Hl Hf] Hi Hj.
  - simpl in Hl. lia.
  - pose proof (Forall_inv Hf) as [Hr _].
    pose proof (Forall_inv_tail Hf) as Hf'.
    cbn [concat]. destruct i as [|i].
    + cbn [Nat.mul Nat.add nth]. rewrite app_nth1 by lia. reflexivity.
    + rewrite app_nth2 by (rewrite Hr; lia).
      replace (S i * w + j - length r)%nat with (i * w + j)%nat
        by (rewrite Hr; lia).
      cbn [nth]. simpl in Hl.
      apply (IH (length g) i (conj eq_refl Hf')); lia.
Qed.

End ArrayFacts.

(** * Properties of the TokenLearner *)

Module TokenLearnerFacts.
Import Fwd ArrayFacts.
Local Open Scope R_scope.

Section WithPrimitives.
Context {prim : Primitives}.

Lemma attention_maps_shape (p : TokenLearnerParams) (K h w c : nat)
    (x : grid) :
  is_grid h w c x -> (1 <= h)%nat ->
  is_mat K (h * w) (attention_maps p K x).
Proof.
  intros Hx Hh. unfold attention_maps.
  apply Permute21_shape.
  apply (Reshape_tokens_shape h w K).
  do 3 (apply Conv2D_same_shape with (c := K); [|exact Hh]).
  apply Conv2D_same_shape with (c := c); assumption.
Qed.

(** Every attention-map value is a value of the sigmoid. *)
Lemma attention_maps_entries (P : R -> Prop) (p : TokenLearnerParams)
    (K : nat) (x : grid) :
  P 0 -> (forall y, P (sigmoid y)) ->
  Forall (Forall P) (attention_maps p K x).
Proof.
  intros H0 Hs. unfold attention_maps.
  apply Permute21_entries; [exact H0|].
  apply Reshape_tokens_entries, Conv2D_entries. exact Hs.
Qed.

Lemma attention_maps_unit (p : TokenLearnerParams) (K : nat) (x : grid) :
  Forall (Forall in_unit) (attention_maps p K x).
Proof.
  apply attention_maps_entries; [unfold in_unit; lra|].
  intros y. pose proof (sigmoid_range y). unfold in_unit. lra.
Qed.

(** One attention map times the flattened grid: the broadcast product of
    a column [(n, 1)] with an array [(n, d)]. *)
Lemma attended_block (a : vec) (X : mat) (n d : nat) :
  length a = n -> is_mat n d X ->
  let m := bmat Rmult (map (fun v => [v]) a) X in
  is_mat n d m /\
  forall j c, (j < n)%nat -> (c < d)%nat ->
    mget m j c = vget a j * mget X j c.
Proof.
  intros Ha HX m. subst m. unfold bmat.
  rewrite length_map, Ha, (proj1 HX), bdim_same.
  assert (E : forall j, (j < n)%nat ->
            bvec Rmult (nth (bidx n j) (map (fun v => [v]) a) [])
                       (nth (bidx n j) X [])
            = tab d (fun c => vget a j * mget X j c)).
  { intros j Hj. rewrite bidx_lt by exact Hj.
    rewrite (nth_indep _ [] [0]) by (rewrite length_map; lia).
    rewrite (map_nth (fun v => [v]) a 0 j).
    unfold bvec. rewrite (is_mat_nth _ _ _ _ HX Hj).
    cbn [length bdim bidx Nat.eqb].
    unfold tab. apply map_ext_in. intros c Hc. apply in_seq in Hc.
    rewrite bidx_lt by lia. reflexivity. }
  split.
  - apply is_mat_tab. intros j Hj. rewrite (E j Hj). apply tab_length.
  - intros j c Hj Hc. unfold mget at 1.
    rewrite nth_tab by exact Hj. rewrite (E j Hj).
    unfold vget at 1. rewrite nth_tab by exact Hc. reflexivity.
Qed.

(** The output of [token_learner], entry by entry. *)
Lemma token_learner_entries (p : TokenLearnerParams) (K h w D : nat)
    (inputs : grid) :
  is_grid h w D inputs -> (1 <= h * w)%nat ->
  let A := attention_maps p K
             (map (map (LayerNormalization LAYER_NORM_EPS (tl_norm p)))
                inputs) in
  let out := token_learner p inputs K in
  is_mat K D out /\
  forall k d, (k < K)%nat -> (d < D)%nat ->
    mget out k d
    = rsum (h * w) (fun pos => mget A k pos * mget (Reshape_tokens inputs) pos d)
      / INR (h * w).
Proof.
  intros Hg Hhw A out.
  assert (Hh : (1 <= h)%nat) by nia.
  assert (HA : is_mat K (h * w) A).
  { apply attention_maps_shape with (c := D); [|exact Hh].
    apply LayerNormalization_grid. exact Hg. }
  pose proof (Reshape_tokens_shape h w D inputs Hg) as HX.
  assert (E : out = tab K (fun k =>
            tab D (fun d =>
              rsum (h * w) (fun pos =>
                mget A k pos * mget (Reshape_tokens inputs) pos d)
              / INR (h * w)))).
  { subst out. unfold token_learner. fold A.
    unfold reduce_mean_axis2, bten, newaxis.
    rewrite length_map, (proj1 HA). cbn [length]. rewrite bdim_one_r.
    unfold tab at 2 3. rewrite map_map.
    apply map_ext_in. intros k Hk. apply in_seq in Hk.
    rewrite bidx_lt by lia. cbn [bidx Nat.eqb nth].
    rewrite (nth_indep _ [] (map (fun v => [v]) [])) by
      (rewrite length_map, (proj1 HA); lia).
    rewrite (map_nth (map (fun v => [v])) A [] k).
    destruct (attended_block (nth k A []) (Reshape_tokens inputs)
                (h * w) D) as [Hm Hget];
      [apply (is_mat_nth _ _ _ _ HA); lia | exact HX |].
    rewrite (is_mat_width _ _ _ Hm Hhw), (proj1 Hm).
    unfold tab. apply map_ext_in. intros d Hd. apply in_seq in Hd.
    f_equal. apply rsum_ext. intros pos Hpos.
    rewrite Hget by lia. reflexivity. }
  split.
  - rewrite E. apply is_mat_tab. intros k _. apply tab_length.
  - intros k d Hk Hd. rewrite E. unfold mget at 1.
    rewrite nth_tab by exact Hk. unfold vget at 1.
    rewrite nth_tab by exact Hd. reflexivity.
Qed.

(** Layer normalisation does not see a constant added to every channel of
    a token. *)
Lemma rsum_shift (n : nat) (v : vec) (t : R) :
  (n <= length v)%nat ->
  rsum n (vget (map (fun x => x + t) v)) = rsum n (vget v) + INR n * t.
Proof.
  induction n as [|n IH]; intros Hn.
  - cbn [rsum INR]. lra.
  - rewrite S_INR. cbn [rsum]. rewrite IH by lia.
    unfold vget at 2. rewrite (nth_map_rows _ v 0 n) by lia.
    unfold vget. lra.
Qed.

Lemma mean_shift (v : vec) (t : R) :
  (1 <= length v)%nat -> mean (map (fun x => x + t) v) = mean v + t.
Proof.
  intros Hv. unfold mean. rewrite length_map, rsum_shift by lia.
  assert (0 < INR (length v)) by (apply lt_0_INR; lia).
  field. lra.
Qed.

Lemma LayerNormalization_shift (eps : R) (p : LayerNormParams) (v : vec)
    (t : R) :
  LayerNormalization eps p (map (fun x => x + t) v)
  = LayerNormalization eps p v.
Proof.
  destruct v as [|x v]; [reflexivity|].
  set (u := x :: v).
  assert (Hu : (1 <= length u)%nat) by (simpl; lia).
  unfold LayerNormalization.
  rewrite (mean_shift u t Hu), map_map, length_map.
  replace (map (fun y => (y + t - (mean u + t)) * (y + t - (mean u + t))) u)
    with (map (fun y => (y - mean u) * (y - mean u)) u)
    by (apply map_ext; intros; ring).
  unfold tab. apply map_ext_in. intros c Hc. apply in_seq in Hc.
  unfold vget at 1. rewrite (nth_map_rows _ u 0 c) by lia.
  fold (vget u c). f_equal. f_equal. f_equal. ring.
Qed.

End WithPrimitives.

End TokenLearnerFacts.

(** * Properties of the forward pass *)

Module ForwardFacts.
Import Fwd ArrayFacts.
Local Open Scope R_scope.

Section WithPrimitives.
Context {prim : Primitives}.

(** ** Computations that leave the random generator alone *)

Lemma deterministic_ret {A : Type} (a : A) : deterministic (ret a).
Proof. exists a. reflexivity. Qed.

Lemma deterministic_bind {A B : Type} (m : M A) (k : A -> M B) :
  deterministic m -> (forall a, deterministic (k a)) ->
  deterministic (bind m k).
Proof.
  intros [a Ha] Hk. destruct (Hk a) as [b Hb].
  exists b. intros g. unfold bind. rewrite Ha. apply Hb.
Qed.

Lemma deterministic_mapM {A B : Type} (f : A -> M B) (l : list A) :
  (forall a, deterministic (f a)) -> deterministic (mapM f l).
Proof.
  intros Hf. induction l as [|a l IH]; cbn [mapM].
  - apply deterministic_ret.
  - apply deterministic_bind; [apply Hf|]. intros b.
    apply deterministic_bind; [exact IH|]. intros bs.
    apply deterministic_ret.
Qed.

Lemma Dropout_inference (rate : R) (v : list R) :
  deterministic (Dropout rate false v).
Proof. apply deterministic_ret. Qed.

Lemma RandomCrop_inference (height width : nat) (img : list (list (list R))) :
  deterministic (RandomCrop height width false img).
Proof. apply deterministic_ret. Qed.

Lemma RandomFlip_inference (img : list (list (list R))) :
  deterministic (RandomFlip false img).
Proof. apply deterministic_ret. Qed.

Lemma data_augmentation_inference (cfg : Config)
    (img : list (list (list R))) :
  deterministic (data_augmentation cfg false img).
Proof.
  unfold data_augmentation.
  apply deterministic_bind; [apply RandomCrop_inference|].
  intros x. apply RandomFlip_inference.
Qed.

Lemma MultiHeadAttention_inference (L : AttentionLayer)
    (p : AttentionParams) (query value : list (list R)) :
  deterministic (MultiHeadAttention L p false query value).
Proof.
  unfold MultiHeadAttention.
  apply deterministic_bind.
  - apply deterministic_mapM. intros m.
    apply deterministic_mapM. intros v. apply Dropout_inference.
  - intros s. apply deterministic_ret.
Qed.

Lemma mlp_inference (p : nat -> DenseParams) (rate : R)
    (hidden_units : list Z) (index : nat) (x : list (list R)) :
  deterministic (mlp p false index x rate hidden_units).
Proof.
  revert index x.
  induction hidden_units as [|units rest IH]; intros index x; cbn [mlp].
  - apply deterministic_ret.
  - apply deterministic_bind.
    + apply deterministic_mapM. intros v. apply Dropout_inference.
    + intros y. apply IH.
Qed.

Lemma transformer_inference (cfg : Config) (p : TransformerParams)
    (x : list (list R)) :
  deterministic (transformer cfg p false x).
Proof.
  unfold transformer.
  apply deterministic_bind; [apply MultiHeadAttention_inference|].
  intros a. apply deterministic_bind; [apply mlp_inference|].
  intros b. apply deterministic_ret.
Qed.

Lemma layer_step_inference (cfg : Config) (p : ModelParams) (use : bool)
    (units i : Z) (x : list (list R)) :
  deterministic (layer_step cfg p use units false i x).
Proof.
  unfold layer_step.
  apply deterministic_bind; [apply transformer_inference|].
  intros e. destruct (use && (i =? NUM_LAYERS cfg / 2)%Z);
    apply deterministic_ret.
Qed.

Lemma layers_loop_inference (cfg : Config) (p : ModelParams) (use : bool)
    (units : Z) (indices : list Z) (x : list (list R)) :
  deterministic (layers_loop cfg p use units false indices x).
Proof.
  revert x. induction indices as [|i rest IH]; intros x; cbn [layers_loop].
  - apply deterministic_ret.
  - apply deterministic_bind; [apply layer_step_inference|].
    intros e. apply IH.
Qed.

Lemma encoded_patches_inference (cfg : Config) (p : ModelParams)
    (augmented : list (list (list R))) :
  deterministic (encoded_patches cfg p false augmented).
Proof.
  unfold encoded_patches. apply deterministic_mapM.
  intros v. apply Dropout_inference.
Qed.

Lemma forward_inference (cfg : Config) (use : bool)
    (units : Z) (p : ModelParams) (inputs : list (list (list R))) :
  deterministic (forward cfg use units p false inputs).
Proof.
  unfold forward.
  apply deterministic_bind; [apply data_augmentation_inference|].
  intros augmented.
  apply deterministic_bind; [apply encoded_patches_inference|].
  intros e. apply deterministic_bind; [apply layers_loop_inference|].
  intros e'. apply deterministic_ret.
Qed.

Lemma create_vit_classifier_inference (cfg : Config) (use : bool)
    (units : Z) (p : ModelParams) (inputs : list (list (list R))) :
  deterministic (create_vit_classifier cfg use units p false inputs).
Proof.
  unfold create_vit_classifier.
  destruct (has_input_shape cfg inputs); [|apply deterministic_ret].
  apply deterministic_bind; [apply forward_inference|].
  intros y. apply deterministic_ret.
Qed.

Lemma call_on_batch_inference (cfg : Config) (use : bool) (units : Z)
    (p : ModelParams) (batch : list (list (list (list R)))) :
  deterministic (call_on_batch cfg use units p false batch).
Proof.
  unfold call_on_batch.
  destruct (forallb (has_input_shape cfg) batch); [|apply deterministic_ret].
  apply deterministic_bind.
  - apply deterministic_mapM. intros img. apply forward_inference.
  - intros ys. apply deterministic_ret.
Qed.

(** ** Shapes through the random layers *)

Lemma Dropout_length (rate : R) (training : bool) (v : list R) (g : rng) :
  length (fst (Dropout rate training v g)) = length v.
Proof.
  unfold Dropout. destruct training; [|reflexivity].
  destruct (uniform g) as [u g']. cbn [fst]. apply tab_length.
Qed.

Lemma mapM_shape {A B : Type} (P : A -> Prop) (Q : B -> Prop)
    (f : A -> M B) :
  (forall a g, P a -> Q (fst (f a g))) ->
  forall (l : list A) (g : rng),
    Forall P l ->
    length (fst (mapM f l g)) = length l /\ Forall Q (fst (mapM f l g)).
Proof.
  intros Hf. induction l as [|a l IH]; intros g Hl; cbn [mapM].
  - split; [reflexivity|constructor].
  - unfold bind. pose proof (Hf a g (Forall_inv Hl)) as Ha.
    destruct (f a g) as [b g1]. cbn [fst] in Ha.
    destruct (IH g1 (Forall_inv_tail Hl)) as [Hlen Hq].
    destruct (mapM f l g1) as [bs g2]. cbn [fst] in *.
    unfold ret. cbn [fst length]. split; [lia|].
    constructor; assumption.
Qed.

Lemma Dropout_mat (rate : R) (training : bool) (n d : nat)
    (m : list (list R)) (g : rng) :
  is_mat n d m -> is_mat n d (fst (mapM (Dropout rate training) m g)).
Proof.
  intros [Hl Hf].
  destruct (mapM_shape (is_vec d) (is_vec d) (Dropout rate training))
    with (l := m) (g := g) as [Hlen Hq]; [|exact Hf|].
  - intros v g' Hv. unfold is_vec in *. rewrite Dropout_length. exact Hv.
  - split; [lia|exact Hq].
Qed.

(** ** Multi-head attention *)

Lemma project_shape (W : nat -> nat -> nat -> R) (b : nat -> nat -> R)
    (heads dim n d : nat) (x : list (list R)) :
  is_mat n d x ->
  is_batch (is_mat n dim) heads (project W b heads dim x).
Proof.
  intros [Hl _]. unfold project. split; [apply tab_length|].
  apply Forall_tab. intros h _. split; [rewrite length_map; exact Hl|].
  apply Forall_map, Forall_forall. intros token _. apply tab_length.
Qed.

Lemma is_batch_nth {A : Type} (P : A -> Prop) (b : nat) (xs : list A)
    (d : A) (i : nat) :
  is_batch P b xs -> (i < b)%nat -> P (nth i xs d).
Proof.
  intros [Hl Hf] Hi. rewrite Forall_forall in Hf.
  apply Hf, nth_In. lia.
Qed.

Lemma softmax_length (v : list R) : length (softmax v) = length v.
Proof. unfold softmax. apply length_map. Qed.

Lemma softmax_pos (v : list R) (j : nat) :
  (j < length v)%nat -> 0 < vget (softmax v) j.
Proof.
  intros Hj. unfold softmax, vget at 1.
  rewrite (nth_map_rows _ v 0 j Hj).
  apply Rdiv_lt_0_compat; [apply exp_pos|].
  apply rsum_pos; [lia|]. intros i _. apply exp_pos.
Qed.

Lemma attention_scores_shape (L : AttentionLayer) (n : nat)
    (q k : list (list (list R))) :
  is_batch (is_mat n (key_dim L)) (num_heads L) q ->
  is_batch (is_mat n (key_dim L)) (num_heads L) k ->
  is_batch (is_mat n n) (num_heads L) (attention_scores L q k).
Proof.
  intros Hq Hk. unfold attention_scores. split; [apply tab_length|].
  apply Forall_tab. intros h Hh.
  pose proof (is_batch_nth _ _ _ [] h Hq Hh) as [Hql _].
  pose proof (is_batch_nth _ _ _ [] h Hk Hh) as [Hkl _].
  split; [rewrite length_map; exact Hql|].
  apply Forall_map, Forall_forall. intros qi _.
  unfold is_vec. rewrite softmax_length, length_map. exact Hkl.
Qed.

Lemma MultiHeadAttention_shape (L : AttentionLayer) (p : AttentionParams)
    (training : bool) (n d : nat) (query value : list (list R)) (g : rng) :
  is_mat n d query ->
  is_mat n d (fst (MultiHeadAttention L p training query value g)).
Proof.
  intros Hq. unfold MultiHeadAttention, bind.
  destruct (mapM _ _ g) as [scores g']. unfold ret. cbn [fst].
  rewrite (proj1 Hq).
  destruct n as [|n]; [split; [reflexivity|constructor]|].
  rewrite (is_mat_width _ _ _ Hq) by lia.
  apply is_mat_tab. intros i _. apply tab_length.
Qed.

(** ** Transformer block *)

Lemma Dense_mat (units : nat) (act : R -> R) (p : DenseParams)
    (n d : nat) (x : list (list R)) :
  is_mat n d x -> is_mat n units (map (Dense units act p) x).
Proof.
  intros [Hl _]. split; [rewrite length_map; exact Hl|].
  apply Forall_map, Forall_forall. intros v _. apply tab_length.
Qed.

Lemma mlp_shape (cfg : Config) (p : nat -> DenseParams) (training : bool)
    (index n d : nat) (x : list (list R)) (rate : R) (g : rng) :
  is_mat n d x ->
  is_mat n (Z.to_nat (PROJECTION_DIM cfg))
    (fst (mlp p training index x rate (MLP_UNITS cfg) g)).
Proof.
  intros Hx. unfold MLP_UNITS. cbn [mlp]. unfold bind.
  pose proof (Dropout_mat rate training _ _ _ g
                (Dense_mat (Z.to_nat (PROJECTION_DIM cfg * 2)) gelu
                   (p index) _ _ _ Hx)) as H1.
  destruct (mapM _ _ g) as [x1 g1]. cbn [fst] in H1.
  pose proof (Dropout_mat rate training _ _ _ g1
                (Dense_mat (Z.to_nat (PROJECTION_DIM cfg)) gelu
                   (p (S index)) _ _ _ H1)) as H2.
  destruct (mapM _ _ g1) as [x2 g2]. exact H2.
Qed.

Lemma transformer_mat (cfg : Config) (p : TransformerParams)
    (training : bool) (n : nat) (x : list (list R)) (g : rng) :
  is_mat n (Z.to_nat (PROJECTION_DIM cfg)) x ->
  is_mat n (Z.to_nat (PROJECTION_DIM cfg))
    (fst (transformer cfg p training x g)).
Proof.
  intros Hx. unfold transformer, bind.
  pose proof (MultiHeadAttention_shape (transformer_attention cfg)
                (attention p) training _ _ _
                (map (LayerNormalization LAYER_NORM_EPS (norm1 p)) x) g
                (LayerNormalization_mat LAYER_NORM_EPS (norm1 p) _ _ _ Hx))
    as Ha.
  destruct (MultiHeadAttention _ _ _ _ _ g) as [a g1]. cbn [fst] in Ha.
  pose proof (bmat_same_shape Rplus _ _ _ _ Ha Hx) as H2. fold (Add a x) in H2.
  pose proof (mlp_shape cfg (mlp_dense p) training 0 _ _ _ (1 / 10) g1
                (LayerNormalization_mat LAYER_NORM_EPS (norm2 p) _ _ _ H2))
    as H4.
  destruct (mlp _ _ _ _ _ _ g1) as [x4 g2]. cbn [fst] in H4.
  unfold ret. cbn [fst]. apply bmat_same_shape; assumption.
Qed.

End WithPrimitives.

End ForwardFacts.

(** * Further properties of the forward pass *)

Module MoreFacts.
Import Fwd ArrayFacts ForwardFacts.
Local Open Scope R_scope.

Lemma rsum_div (n : nat) (f : nat -> R) (c : R) :
  rsum n (fun i => f i / c) = rsum n f / c.
Proof.
  induction n as [|n IH]; cbn [rsum]; [unfold Rdiv; ring|].
  rewrite IH. unfold Rdiv. ring.
Qed.

Lemma rsum_zero (n : nat) (f : nat -> R) :
  (forall i, (i < n)%nat -> f i = 0) -> rsum n f = 0.
Proof.
  induction n as [|n IH]; intros H; cbn [rsum]; [reflexivity|].
  rewrite IH, H by (intros; try apply H; lia). ring.
Qed.

Lemma rsum_plus (n : nat) (f g : nat -> R) :
  rsum n (fun i => f i + g i) = rsum n f + rsum n g.
Proof.
  induction n as [|n IH]; cbn [rsum]; [ring|]. rewrite IH. ring.
Qed.

Lemma rsum_scal (n : nat) (f : nat -> R) (c : R) :
  rsum n (fun i => f i * c) = rsum n f * c.
Proof.
  induction n as [|n IH]; cbn [rsum]; [ring|]. rewrite IH. ring.
Qed.

(** The softmax of a non-empty vector sums to 1. *)
Lemma softmax_sum (v : list R) :
  (1 <= length v)%nat -> rsum (length v) (vget (softmax v)) = 1.
Proof.
  intros Hv.
  assert (Hs : 0 < rsum (length v) (fun j => exp (vget v j)))
    by (apply rsum_pos; [exact Hv|]; intros; apply exp_pos).
  rewrite (rsum_ext _ _ (fun j =>
             exp (vget v j) / rsum (length v) (fun i => exp (vget v i)))).
  - rewrite rsum_div. field. lra.
  - intros j Hj. unfold softmax, vget at 1.
    rewrite (nth_map_rows _ v 0 j Hj). reflexivity.
Qed.

Lemma softmax_le_1 (v : list R) (j : nat) :
  (j < length v)%nat -> vget (softmax v) j <= 1.
Proof.
  intros Hj.
  assert (Hsum := softmax_sum v ltac:(lia)).
  assert (G : forall n, (n <= length v)%nat ->
            forall i, (i < n)%nat ->
              vget (softmax v) i <= rsum n (vget (softmax v))).
  { induction n as [|n IH]; intros Hn i Hi; [lia|]. cbn [rsum].
    assert (Hpos : 0 < vget (softmax v) n) by (apply softmax_pos; lia).
    assert (Hge : 0 <= rsum n (vget (softmax v))).
    { clear - Hn. induction n as [|n IHn]; cbn [rsum]; [lra|].
      assert (0 < vget (softmax v) n) by (apply softmax_pos; lia).
      assert (0 <= rsum n (vget (softmax v))) by (apply IHn; lia). lra. }
    destruct (Nat.eq_dec i n) as [->|Hne]; [lra|].
    assert (vget (softmax v) i <= rsum n (vget (softmax v)))
      by (apply IH; lia).
    lra. }
  rewrite <- Hsum. apply G; [lia|exact Hj].
Qed.

(** A list is the table of its entries. *)
Lemma tab_nth {A : Type} (l : list A) (d : A) :
  tab (length l) (fun i => nth i l d) = l.
Proof.
  apply (nth_ext _ _ d d); [apply tab_length|].
  intros i Hi. rewrite tab_length in Hi.
  apply (nth_tab (length l) i (fun k => nth k l d) d Hi).
Qed.

Lemma tab_ext {A : Type} (n : nat) (f g : nat -> A) :
  (forall i, (i < n)%nat -> f i = g i) -> tab n f = tab n g.
Proof.
  intros H. unfold tab. apply map_ext_in. intros i Hi.
  apply in_seq in Hi. apply H. lia.
Qed.

(** Row [i * w + j] of the flattened grid is cell [(i, j)]. *)
Lemma Reshape_tokens_row (h w d : nat) (g : list (list (list R)))
    (i j : nat) :
  is_grid h w d g -> (i < h)%nat -> (j < w)%nat ->
  nth (i * w + j) (Reshape_tokens g) [] = nth j (nth i g []) [].
Proof.
  unfold Reshape_tokens. revert h i.
  induction g as [|r g IH]; intros h i [Hl Hf] Hi Hj.
  - simpl in Hl. lia.
  - pose proof (Forall_inv Hf) as [Hr _].
    pose proof (Forall_inv_tail Hf) as Hf'.
    cbn [concat]. destruct i as [|i].
    + cbn [Nat.mul Nat.add nth]. rewrite app_nth1 by lia. reflexivity.
    + rewrite app_nth2 by (rewrite Hr; lia).
      replace (S i * w + j - length r)%nat with (i * w + j)%nat
        by (rewrite Hr; lia).
      cbn [nth]. simpl in Hl.
      apply (IH (length g) i (conj eq_refl Hf')); lia.
Qed.

Lemma Reshape_grid_shape (h w d : nat) (m : list (list R)) :
  is_mat (h * w) d m -> is_grid h w d (Reshape_grid h w m).
Proof.
  intros Hm. unfold Reshape_grid. apply is_grid_tab. intros i Hi.
  apply is_mat_tab. intros j Hj.
  apply (is_mat_nth _ _ _ _ Hm). nia.
Qed.

Lemma Reshape_grid_tokens (h w d : nat) (g : list (list (list R))) :
  is_grid h w d g -> Reshape_grid h w (Reshape_tokens g) = g.
Proof.
  intros Hg. unfold Reshape_grid.
  etransitivity; [|apply (tab_nth g [])]. rewrite (proj1 Hg).
  apply tab_ext. intros i Hi.
  assert (Hrow : length (nth i g []) = w).
  { destruct Hg as [Hl Hf]. rewrite Forall_forall in Hf.
    apply (Hf (nth i g [])). apply nth_In. lia. }
  etransitivity; [|apply (tab_nth (nth i g []) [])]. rewrite Hrow.
  apply tab_ext. intros j Hj.
  apply (Reshape_tokens_row h w d g i j Hg Hi Hj).
Qed.

Lemma Reshape_tokens_grid (h w d : nat) (m : list (list R)) :
  is_mat (h * w) d m -> Reshape_tokens (Reshape_grid h w m) = m.
Proof.
  intros Hm.
  pose proof (Reshape_grid_shape h w d m Hm) as Hg.
  pose proof (Reshape_tokens_shape h w d _ Hg) as [Hlen _].
  apply (nth_ext _ _ [] []); [rewrite Hlen; symmetry; apply Hm|].
  intros pos Hpos. rewrite Hlen in Hpos.
  assert (Hw : (1 <= w)%nat) by nia.
  assert (Hq : (pos / w < h)%nat)
    by (apply Nat.Div0.div_lt_upper_bound; nia).
  assert (Hr : (pos mod w < w)%nat) by (apply Nat.mod_upper_bound; lia).
  assert (Epos : pos = (pos / w * w + pos mod w)%nat).
  { rewrite (Nat.div_mod_eq pos w) at 1. lia. }
  rewrite Epos at 1.
  rewrite (Reshape_tokens_row h w d _ _ _ Hg Hq Hr).
  unfold Reshape_grid. rewrite nth_tab by exact Hq.
  rewrite nth_tab by exact Hr. rewrite <- Epos. reflexivity.
Qed.

(** Entries of a broadcast operation on arrays of equal shape. *)
Lemma bmat_get (op : R -> R -> R) (n d : nat) (a b : list (list R))
    (i j : nat) :
  is_mat n d a -> is_mat n d b -> (i < n)%nat -> (j < d)%nat ->
  mget (bmat op a b) i j = op (mget a i j) (mget b i j).
Proof.
  intros Ha Hb Hi Hj. unfold mget at 1, bmat.
  rewrite (proj1 Ha), (proj1 Hb), bdim_same.
  rewrite nth_tab by exact Hi. rewrite bidx_lt by exact Hi.
  unfold bvec, vget at 1.
  rewrite (is_mat_nth _ _ _ _ Ha Hi), (is_mat_nth _ _ _ _ Hb Hi), bdim_same.
  rewrite nth_tab by exact Hj. rewrite bidx_lt by exact Hj. reflexivity.
Qed.

(** Arrays of one shape with equal entries are equal. *)
Lemma mat_ext (n d : nat) (a b : list (list R)) :
  is_mat n d a -> is_mat n d b ->
  (forall i j, (i < n)%nat -> (j < d)%nat -> mget a i j = mget b i j) ->
  a = b.
Proof.
  intros Ha Hb H.
  apply (nth_ext _ _ [] []); [rewrite (proj1 Ha), (proj1 Hb); reflexivity|].
  intros i Hi. rewrite (proj1 Ha) in Hi.
  apply (nth_ext _ _ 0 0).
  - rewrite (is_mat_nth _ _ _ _ Ha Hi), (is_mat_nth _ _ _ _ Hb Hi).
    reflexivity.
  - intros j Hj. rewrite (is_mat_nth _ _ _ _ Ha Hi) in Hj.
    apply (H i j Hi Hj).
Qed.

(** Adding an array of zeros changes nothing. *)
Lemma Add_zeros (n d : nat) (z x : list (list R)) :
  is_mat n d z -> is_mat n d x ->
  (forall i j, (i < n)%nat -> (j < d)%nat -> mget z i j = 0) ->
  Add z x = x.
Proof.
  intros Hz Hx H0. unfold Add.
  apply (mat_ext n d); [apply bmat_same_shape; assumption|exact Hx|].
  intros i j Hi Hj. rewrite (bmat_get Rplus n d z x i j Hz Hx Hi Hj).
  rewrite (H0 i j Hi Hj). ring.
Qed.

(** ** The patch projection *)

Lemma conv_length_valid_stride (n P : nat) :
  (1 <= P)%nat -> (P <= n)%nat ->
  conv_output_length n P Build.VALID P = (n / P)%nat.
Proof.
  intros HP Hn. unfold conv_output_length.
  replace (n + 1 - P + (P - 1))%nat with n by lia. reflexivity.
Qed.

Lemma padded_no_padding (g : list (list (list R))) (i j c : nat) :
  padded g 0 0 i j c = gget g i j c.
Proof.
  unfold padded. rewrite !Nat.sub_0_r.
  destruct i, j; reflexivity.
Qed.

(** The projection written out: one token per whole patch. *)
Lemma projected_patches_unfold (cfg : Config) (pp : ConvParams)
    (h w c : nat) (g : list (list (list R))) :
  let P := Z.to_nat (PATCH_SIZE cfg) in
  is_grid h w c g -> (1 <= c)%nat -> (1 <= P)%nat ->
  (P <= h)%nat -> (P <= w)%nat ->
  projected_patches cfg pp g
  = Reshape_tokens
      (tab (h / P) (fun i => tab (w / P) (fun j =>
         tab (Z.to_nat (PROJECTION_DIM cfg)) (fun f =>
           linear
             (rsum P (fun di => rsum P (fun dj => rsum c (fun ch =>
                gget g (i * P + di) (j * P + dj) ch
                * kernel pp di dj ch f)))
              + cbias pp f))))).
Proof.
  intros P Hg Hc HP Hh Hw. unfold projected_patches, Conv2D. fold P.
  assert (Hrows : rows g = h) by apply Hg.
  assert (Hcols : cols g = w) by (apply (is_grid_cols h w c g Hg); lia).
  assert (Hchan : chan g = c) by (apply (is_grid_chan h w c g Hg); lia).
  rewrite Hrows, Hcols, Hchan.
  rewrite !conv_length_valid_stride by assumption.
  cbn [pad_before]. f_equal.
  apply tab_ext. intros i _. apply tab_ext. intros j _.
  apply tab_ext. intros f _. f_equal. f_equal.
  apply rsum_ext. intros di _. apply rsum_ext. intros dj _.
  apply rsum_ext. intros ch _. rewrite padded_no_padding. reflexivity.
Qed.

Lemma projected_patches_mat (cfg : Config) (pp : ConvParams)
    (h w c : nat) (g : list (list (list R))) :
  let P := Z.to_nat (PATCH_SIZE cfg) in
  is_grid h w c g -> (1 <= c)%nat -> (1 <= P)%nat ->
  (P <= h)%nat -> (P <= w)%nat ->
  is_mat ((h / P) * (w / P)) (Z.to_nat (PROJECTION_DIM cfg))
    (projected_patches cfg pp g).
Proof.
  intros P Hg Hc HP Hh Hw.
  rewrite (projected_patches_unfold cfg pp h w c g Hg Hc HP Hh Hw).
  apply Reshape_tokens_shape. apply is_grid_tab. intros i _.
  apply is_mat_tab. intros j _. apply tab_length.
Qed.

(** The projection reads the pixels of whole patches only. *)
Lemma projected_patches_whole_patches (cfg : Config) (pp : ConvParams)
    (h w c : nat) (g g' : list (list (list R))) :
  let P := Z.to_nat (PATCH_SIZE cfg) in
  is_grid h w c g -> is_grid h w c g' -> (1 <= c)%nat -> (1 <= P)%nat ->
  (P <= h)%nat -> (P <= w)%nat ->
  (forall i j ch, (i < h / P * P)%nat -> (j < w / P * P)%nat ->
     (ch < c)%nat -> gget g i j ch = gget g' i j ch) ->
  projected_patches cfg pp g = projected_patches cfg pp g'.
Proof.
  intros P Hg Hg' Hc HP Hh Hw Heq.
  rewrite (projected_patches_unfold cfg pp h w c g Hg Hc HP Hh Hw).
  rewrite (projected_patches_unfold cfg pp h w c g' Hg' Hc HP Hh Hw).
  fold P. f_equal.
  apply tab_ext. intros i Hi. apply tab_ext. intros j Hj.
  apply tab_ext. intros f _. f_equal. f_equal.
  apply rsum_ext. intros di Hdi. apply rsum_ext. intros dj Hdj.
  apply rsum_ext. intros ch Hch. f_equal.
  apply Heq; [nia|nia|exact Hch].
Qed.

End MoreFacts.

Module LoopFacts.
Import Fwd ArrayFacts TokenLearnerFacts ForwardFacts MoreFacts.
Local Open Scope R_scope.

Section WithPrimitives.
Context {prim : Primitives}.

Lemma layers_loop_append (cfg : Config) (p : ModelParams) (use : bool)
    (K : Z) (training : bool) (xs ys : list Z) (x : list (list R))
    (g : rng) :
  layers_loop cfg p use K training (xs ++ ys) x g
  = let '(e, g') := layers_loop cfg p use K training xs x g in
    layers_loop cfg p use K training ys e g'.
Proof.
  revert x g. induction xs as [|i xs IH]; intros x g; [reflexivity|].
  cbn [app layers_loop]. unfold bind.
  destruct (layer_step cfg p use K training i x g) as [e g1]. apply IH.
Qed.

(** A loop iteration away from the insertion index keeps the shape. *)
Lemma layer_step_plain (cfg : Config) (p : ModelParams) (use : bool)
    (K i : Z) (training : bool) (n : nat) (x : list (list R)) (g : rng) :
  use && (i =? NUM_LAYERS cfg / 2)%Z = false ->
  is_mat n (Z.to_nat (PROJECTION_DIM cfg)) x ->
  is_mat n (Z.to_nat (PROJECTION_DIM cfg))
    (fst (layer_step cfg p use K training i x g)).
Proof.
  intros Hno Hx. unfold layer_step, bind.
  pose proof (transformer_mat cfg (blocks p (Z.to_nat i)) training n x g Hx)
    as He.
  destruct (transformer cfg (blocks p (Z.to_nat i)) training x g) as [e g1].
  rewrite Hno. exact He.
Qed.

(** The iteration at the insertion index returns K tokens. *)
Lemma layer_step_reduces (cfg : Config) (p : ModelParams) (K i : Z)
    (training : bool) (s : nat) (x : list (list R)) (g : rng) :
  i = (NUM_LAYERS cfg / 2)%Z -> (1 <= s)%nat ->
  is_mat (s * s) (Z.to_nat (PROJECTION_DIM cfg)) x ->
  is_mat (Z.to_nat K) (Z.to_nat (PROJECTION_DIM cfg))
    (fst (layer_step cfg p true K training i x g)).
Proof.
  intros Hi Hs Hx. unfold layer_step, bind.
  pose proof (transformer_mat cfg (blocks p (Z.to_nat i)) training _ x g Hx)
    as He.
  destruct (transformer cfg (blocks p (Z.to_nat i)) training x g) as [e g1].
  cbn [fst] in He. rewrite Hi, Z.eqb_refl. cbn [andb]. unfold ret. cbn [fst].
  rewrite (proj1 He), Nat.sqrt_square.
  apply (token_learner_entries (learner p) (Z.to_nat K) s s
           (Z.to_nat (PROJECTION_DIM cfg))).
  - apply Reshape_grid_shape. exact He.
  - nia.
Qed.

Lemma range_S (j : nat) :
  range (Z.of_nat (S j)) = range (Z.of_nat j) ++ [Z.of_nat j].
Proof.
  unfold range. rewrite !Nat2Z.id, seq_S, map_app. reflexivity.
Qed.

(** The number of tokens after the first [j] iterations of the loop. *)
Lemma layers_loop_token_count (cfg : Config) (p : ModelParams) (K : Z)
    (training : bool) (s : nat) (x : list (list R)) (j : nat) (g : rng) :
  (0 <= NUM_LAYERS cfg)%Z -> (1 <= s)%nat ->
  is_mat (s * s) (Z.to_nat (PROJECTION_DIM cfg)) x ->
  is_mat (if (Z.of_nat j <=? NUM_LAYERS cfg / 2)%Z then (s * s)%nat
          else Z.to_nat K)
    (Z.to_nat (PROJECTION_DIM cfg))
    (fst (layers_loop cfg p true K training (range (Z.of_nat j)) x g)).
Proof.
  intros HL Hs Hx.
  assert (Hm : (0 <= NUM_LAYERS cfg / 2)%Z) by (apply Z.div_pos; lia).
  induction j as [|j IH].
  - cbn [range Z.of_nat Z.to_nat seq map layers_loop]. unfold ret. cbn [fst].
    destruct (Z.leb_spec 0 (NUM_LAYERS cfg / 2)); [exact Hx|lia].
  - rewrite range_S, layers_loop_append.
    destruct (layers_loop cfg p true K training (range (Z.of_nat j)) x g)
      as [e g1].
    cbn [fst] in IH. cbn [layers_loop]. unfold bind.
    destruct (Z.leb_spec (Z.of_nat j) (NUM_LAYERS cfg / 2)) as [Hle|Hgt].
    + destruct (Z.eq_dec (Z.of_nat j) (NUM_LAYERS cfg / 2)) as [E|NE].
      * pose proof (layer_step_reduces cfg p K (Z.of_nat j) training s e g1
                      E Hs IH) as Hr.
        destruct (layer_step cfg p true K training (Z.of_nat j) e g1)
          as [e' g2].
        unfold ret. cbn [fst] in *.
        destruct (Z.leb_spec (Z.of_nat (S j)) (NUM_LAYERS cfg / 2));
          [lia|exact Hr].
      * assert (Hno : true && (Z.of_nat j =? NUM_LAYERS cfg / 2)%Z = false)
          by (cbn [andb]; apply Z.eqb_neq; exact NE).
        pose proof (layer_step_plain cfg p true K (Z.of_nat j) training _ e
                      g1 Hno IH) as Hr.
        destruct (layer_step cfg p true K training (Z.of_nat j) e g1)
          as [e' g2].
        unfold ret. cbn [fst] in *.
        destruct (Z.leb_spec (Z.of_nat (S j)) (NUM_LAYERS cfg / 2));
          [exact Hr|lia].
    + assert (Hno : true && (Z.of_nat j =? NUM_LAYERS cfg / 2)%Z = false)
        by (cbn [andb]; apply Z.eqb_neq; lia).
      pose proof (layer_step_plain cfg p true K (Z.of_nat j) training _ e
                    g1 Hno IH) as Hr.
      destruct (layer_step cfg p true K training (Z.of_nat j) e g1)
        as [e' g2].
      unfold ret. cbn [fst] in *.
      destruct (Z.leb_spec (Z.of_nat (S j)) (NUM_LAYERS cfg / 2));
        [lia|exact Hr].
Qed.

(** The token sequence entering the loop. *)
Lemma encoded_patches_mat (cfg : Config) (p : ModelParams)
    (training : bool) (c : nat) (augmented : list (list (list R)))
    (g : rng) :
  (1 <= PATCH_SIZE cfg)%Z -> (PATCH_SIZE cfg <= IMAGE_SIZE cfg)%Z ->
  (1 <= c)%nat ->
  is_grid (Z.to_nat (IMAGE_SIZE cfg)) (Z.to_nat (IMAGE_SIZE cfg)) c
    augmented ->
  let s := Z.to_nat (IMAGE_SIZE cfg / PATCH_SIZE cfg) in
  is_mat (s * s) (Z.to_nat (PROJECTION_DIM cfg))
    (fst (encoded_patches cfg p training augmented g)).
Proof.
  intros HP HI Hc Hg s. unfold encoded_patches.
  apply Dropout_mat.
  assert (Es : s = (Z.to_nat (IMAGE_SIZE cfg) / Z.to_nat (PATCH_SIZE cfg))%nat)
    by (subst s; apply Z2Nat.inj_div; lia).
  assert (Hproj : is_mat (s * s) (Z.to_nat (PROJECTION_DIM cfg))
            (projected_patches cfg (patch_projection p) augmented)).
  { rewrite Es.
    apply (projected_patches_mat cfg (patch_projection p) _ _ c augmented Hg);
      lia. }
  assert (EN : Z.to_nat (NUM_PATCHES cfg) = (s * s)%nat).
  { unfold NUM_PATCHES. rewrite Z.pow_2_r. subst s.
    apply Z2Nat.inj_mul; apply Z.div_pos; lia. }
  rewrite EN. unfold position_embedding.
  apply bmat_same_shape; [exact Hproj|].
  fold (tab (s * s) (fun pos =>
          tab (Z.to_nat (PROJECTION_DIM cfg))
            (fun d => position_table p pos d))).
  apply is_mat_tab. intros i _. apply tab_length.
Qed.

End WithPrimitives.

End LoopFacts.

(** * The claims *)

Section BuildClaims.
Import Build BuildFacts.
Local Open Scope Z_scope.

(** C5 (as stated, refuted): with an image size of 50 and a patch size of
    6, neither 50 is a multiple of 6 nor does the patch projection fail:
    it yields 8 * 8 = 64 tokens of width 128, and the whole model builds. *)
Lemma patch_projection_accepts_indivisible_size :
  IMAGE_SIZE config_50 mod PATCH_SIZE config_50 <> 0 /\
  projected_patches config_50 [50; 50; 3] = Ok [64; 128] /\
  is_ok (create_vit_classifier config_50 true 4) = true.
Proof.
  split; [discriminate|]. split; reflexivity.
Qed.

(** C5 (amended): the patch projection checks no divisibility.  For a
    patch size P >= 1, an embedding width D >= 1 and a non-empty image it
    succeeds whenever P <= H and P <= W, yielding floor(H/P) * floor(W/P)
    tokens of width D, and the trailing H mod P rows and W mod P columns
    are dropped: two images that agree on the first floor(H/P) * P rows
    and floor(W/P) * P columns get the same tokens.  It fails, while the
    model is built, when the image is smaller than one patch. *)
Theorem patch_projection_floors (cfg : Config) (H W C : nat)
    (pp : Fwd.ConvParams) (g g' : list (list (list R))) :
  1 <= PATCH_SIZE cfg -> 1 <= PROJECTION_DIM cfg ->
  (1 <= H)%nat -> (1 <= W)%nat -> (1 <= C)%nat ->
  let P := Z.to_nat (PATCH_SIZE cfg) in
  ((P <= H)%nat /\ (P <= W)%nat ->
   projected_patches cfg [Z.of_nat H; Z.of_nat W; Z.of_nat C]
   = Ok [(Z.of_nat H / PATCH_SIZE cfg) * (Z.of_nat W / PATCH_SIZE cfg);
         PROJECTION_DIM cfg] /\
   (Fwd.is_grid H W C g ->
    Fwd.is_mat ((H / P) * (W / P)) (Z.to_nat (PROJECTION_DIM cfg))
      (Fwd.projected_patches cfg pp g)) /\
   (Fwd.is_grid H W C g -> Fwd.is_grid H W C g' ->
    (forall i j ch, (i < H / P * P)%nat -> (j < W / P * P)%nat ->
       (ch < C)%nat -> Fwd.gget g i j ch = Fwd.gget g' i j ch) ->
    Fwd.projected_patches cfg pp g = Fwd.projected_patches cfg pp g')) /\
  ((H < P)%nat \/ (W < P)%nat ->
   projected_patches cfg [Z.of_nat H; Z.of_nat W; Z.of_nat C]
   = Err ConvOutputNonPositive).
Proof.
  intros HP HD HH HW HC P. split.
  - intros [H1 H2]. split; [|split].
    + apply projected_patches_shape; lia.
    + intros Hg.
      apply (MoreFacts.projected_patches_mat cfg pp H W C g Hg); lia.
    + intros Hg Hg' Heq.
      apply (MoreFacts.projected_patches_whole_patches cfg pp H W C g g'
               Hg Hg'); try lia. exact Heq.
  - intros Hs. apply projected_patches_too_small; lia.
Qed.

Lemma patch_projection_floors_witness :
  (projected_patches config_small [Z.of_nat 3; Z.of_nat 3; Z.of_nat 1]
   = Ok [(Z.of_nat 3 / 2) * (Z.of_nat 3 / 2); 2] /\
   Fwd.is_mat ((3 / 2) * (3 / 2)) (Z.to_nat 2)
     (Fwd.projected_patches config_small ramp_conv image_3x3_a) /\
   Fwd.projected_patches config_small ramp_conv image_3x3_a
   = Fwd.projected_patches config_small ramp_conv image_3x3_b) /\
  projected_patches config_small [Z.of_nat 1; Z.of_nat 3; Z.of_nat 1]
  = Err ConvOutputNonPositive.
Proof.
  assert (Ha : Fwd.is_grid 3 3 1 image_3x3_a)
    by (unfold image_3x3_a; shape).
  assert (Hb : Fwd.is_grid 3 3 1 image_3x3_b)
    by (unfold image_3x3_b; shape).
  split.
  - destruct (patch_projection_floors config_small 3 3 1 ramp_conv
                image_3x3_a image_3x3_b) as [Hok _];
      [simpl; lia|simpl; lia|lia|lia|lia|].
    destruct Hok as (Hshape & Hmat & Hsame); [simpl; lia|].
    split; [exact Hshape|]. split; [exact (Hmat Ha)|].
    apply (Hsame Ha Hb). intros i j ch Hi Hj Hch.
    change (3 / Z.to_nat (PATCH_SIZE config_small)
            * Z.to_nat (PATCH_SIZE config_small))%nat with 2%nat in Hi, Hj.
    destruct i as [|[|i]]; [| |lia];
      (destruct j as [|[|j]]; [| |lia]);
      (destruct ch as [|ch]; [reflexivity|lia]).
  - destruct (patch_projection_floors config_small 1 3 1 ramp_conv
                image_3x3_a image_3x3_b) as [_ Herr];
      [simpl; lia|simpl; lia|lia|lia|lia|].
    apply Herr. left. simpl. lia.
Defined.

(** C6: across the pipeline with the TokenLearner the sequence has
    N = (H/P) * (W/P) tokens entering the first block and after every
    block before the insertion index, and K tokens after the block at the
    insertion index and after every later block; the output has
    NUM_CLASSES entries.  This is what the build computes, and what the
    forward pass returns: the sequence made from an augmented image has N
    tokens, and after the first j iterations of the loop it has N tokens
    for j up to the insertion index and K tokens beyond.  With the
    notebook's values (48 x 48 image, patches of 6, 4 blocks, insertion at
    index 2, K = 4): 64 tokens of width 128, then 4, and an output of
    length 10. *)
Theorem token_count_across_pipeline :
  (forall (cfg : Config) (K : Z),
     1 <= fst (fst (INPUT_SHAPE cfg)) -> 1 <= snd (fst (INPUT_SHAPE cfg)) ->
     1 <= snd (INPUT_SHAPE cfg) ->
     1 <= PATCH_SIZE cfg -> PATCH_SIZE cfg <= IMAGE_SIZE cfg ->
     1 <= PROJECTION_DIM cfg -> 1 <= NUM_HEADS cfg ->
     0 <= NUM_LAYERS cfg -> 1 <= NUM_CLASSES cfg -> 1 <= K ->
     let N := (IMAGE_SIZE cfg / PATCH_SIZE cfg)
              * (IMAGE_SIZE cfg / PATCH_SIZE cfg) in
     (exists m,
        create_vit_classifier cfg true K = Ok m /\
        encoded_in m = [N; PROJECTION_DIM cfg] /\
        length (after_layer m) = Z.to_nat (NUM_LAYERS cfg) /\
        (forall i, 0 <= i < NUM_LAYERS cfg ->
           nth (Z.to_nat i) (after_layer m) []
           = if i <? NUM_LAYERS cfg / 2 then [N; PROJECTION_DIM cfg]
             else [K; PROJECTION_DIM cfg]) /\
        outputs m = [NUM_CLASSES cfg]) /\
     (forall (prim : Fwd.Primitives) (p : Fwd.ModelParams)
             (training : bool) (augmented : list (list (list R)))
             (g : Fwd.rng),
        Fwd.is_grid (Z.to_nat (IMAGE_SIZE cfg)) (Z.to_nat (IMAGE_SIZE cfg))
          (Z.to_nat (snd (INPUT_SHAPE cfg))) augmented ->
        let x := fst (Fwd.encoded_patches cfg p training augmented g) in
        Fwd.is_mat (Z.to_nat N) (Z.to_nat (PROJECTION_DIM cfg)) x /\
        forall (j : nat) (g' : Fwd.rng),
          Fwd.is_mat
            (if Z.of_nat j <=? NUM_LAYERS cfg / 2 then Z.to_nat N
             else Z.to_nat K)
            (Z.to_nat (PROJECTION_DIM cfg))
            (fst (Fwd.layers_loop cfg p true K training
                    (range (Z.of_nat j)) x g')))) /\
  create_vit_classifier notebook_config true 4
  = Ok {| encoded_in := [64; 128];
          after_layer := [[64; 128]; [64; 128]; [4; 128]; [4; 128]];
          outputs := [10] |}.
Proof.
  split; [|reflexivity].
  intros cfg K Hih Hiw Hic HP HI HD HH HL HC HK N.
  assert (Hn : 1 <= IMAGE_SIZE cfg / PATCH_SIZE cfg)
    by (apply Z.div_le_lower_bound; lia).
  set (n := IMAGE_SIZE cfg / PATCH_SIZE cfg) in *.
  split.
  - set (tr := map (fun i => tokens_after cfg N K (Z.of_nat i))
                 (seq 0 (Z.to_nat (NUM_LAYERS cfg)))).
    assert (Hlast : exists x, last tr [N; PROJECTION_DIM cfg]
                              = [x; PROJECTION_DIM cfg]).
    { subst tr. generalize (seq 0 (Z.to_nat (NUM_LAYERS cfg))).
      intros l. generalize N at 2.
      induction l as [|i l IH]; intros x0; [exists x0; reflexivity|].
      cbn [map]. rewrite last_cons_default.
      unfold tokens_after at 2.
      destruct (Z.of_nat i <? NUM_LAYERS cfg / 2); apply IH. }
    destruct Hlast as [x Hx].
    exists {| encoded_in := [N; PROJECTION_DIM cfg]; after_layer := tr;
              outputs := [NUM_CLASSES cfg] |}.
    split; [|split; [reflexivity|split; [|split; [|reflexivity]]]].
    + unfold create_vit_classifier.
      destruct (INPUT_SHAPE cfg) as [[ih iw] ic].
      unfold data_augmentation, Rescaling, Resizing, RandomCrop, RandomFlip.
      cbn [bind fst].
      destruct (Z.leb_spec (IMAGE_SIZE cfg) 0); [lia|]. cbn [orb bind].
      rewrite projected_patches_shape by lia. cbn [bind].
      unfold position_embedding, Embedding, NUM_PATCHES.
      rewrite Z.pow_2_r. fold n. fold N.
      destruct (Z.leb_spec N 0); [subst N; nia|].
      destruct (Z.leb_spec (PROJECTION_DIM cfg) 0); [lia|].
      cbn [orb bind app].
      rewrite broadcast_same. cbn [bind]. unfold Dropout.
      pose proof (layers_loop_tokens cfg n K (Z.to_nat (NUM_LAYERS cfg)) 0
                    Hn HD HK) as Hloop.
      unfold tokens_entering in Hloop. fold N in Hloop.
      replace (Z.of_nat 0 <=? NUM_LAYERS cfg / 2) with true in Hloop.
      * unfold range. rewrite Hloop. cbn [bind]. fold tr.
        unfold LayerNormalization. rewrite Hx. cbn [GlobalAvgPool1D bind].
        unfold Dense. destruct (Z.ltb_spec (NUM_CLASSES cfg) 0); [lia|].
        reflexivity.
      * symmetry. apply Z.leb_le. apply Z.div_pos; lia.
    + cbn [after_layer]. subst tr. rewrite length_map, length_seq.
      reflexivity.
    + intros i Hi. cbn [after_layer]. subst tr.
      rewrite (nth_indep _ [] (tokens_after cfg N K (Z.of_nat 0)))
        by (rewrite length_map, length_seq; lia).
      rewrite (map_nth (fun j => tokens_after cfg N K (Z.of_nat j))).
      rewrite seq_nth by lia. cbn [Nat.add].
      rewrite Z2Nat.id by lia. reflexivity.
  - intros prim p training augmented g Hg x.
    assert (EN : Z.to_nat N = (Z.to_nat n * Z.to_nat n)%nat)
      by (subst N; apply Z2Nat.inj_mul; lia).
    assert (Hx : Fwd.is_mat (Z.to_nat n * Z.to_nat n)
                   (Z.to_nat (PROJECTION_DIM cfg)) x).
    { subst x n.
      apply (LoopFacts.encoded_patches_mat cfg p training
               (Z.to_nat (snd (INPUT_SHAPE cfg))) augmented g);
        try lia. exact Hg. }
    rewrite EN. split; [exact Hx|].
    intros j g'.
    apply LoopFacts.layers_loop_token_count; [lia|lia|exact Hx].
Qed.

Lemma token_count_across_pipeline_witness :
  (exists m,
     create_vit_classifier config_small true 1 = Ok m /\
     encoded_in m = [4 / 2 * (4 / 2); 2] /\
     length (after_layer m) = Z.to_nat 2 /\
     (forall i, 0 <= i < 2 ->
        nth (Z.to_nat i) (after_layer m) []
        = if i <? 2 / 2 then [4 / 2 * (4 / 2); 2] else [1; 2]) /\
     outputs m = [2]) /\
  (let x := fst (Fwd.encoded_patches (prim := counter_primitives)
                   config_small (flat_model 1) true image_4x4 O) in
   Fwd.is_mat (Z.to_nat (4 / 2 * (4 / 2))) (Z.to_nat 2) x /\
   forall (j : nat) (g' : nat),
     Fwd.is_mat
       (if Z.of_nat j <=? 2 / 2 then Z.to_nat (4 / 2 * (4 / 2))
        else Z.to_nat 1)
       (Z.to_nat 2)
       (fst (Fwd.layers_loop (prim := counter_primitives) config_small
               (flat_model 1) true 1 true (range (Z.of_nat j)) x g'))).
Proof.
  destruct (proj1 token_count_across_pipeline config_small 1) as [HB HF];
    try (simpl; lia).
  split; [exact HB|].
  apply (HF counter_primitives (flat_model 1) true image_4x4 O).
  unfold image_4x4. shape.
Defined.

(** C8: if the number N of tokens entering the loop of blocks is not a
    perfect square, building a model with the TokenLearner fails: the
    reshape to an (h, h, c) grid at the insertion index rejects the
    sequence.  The failure belongs to the construction of the model, so no
    model exists that a training step could run. *)
Theorem non_square_token_count_fails_at_build (cfg : Config) (K N : Z) :
  1 <= NUM_LAYERS cfg -> 1 <= PROJECTION_DIM cfg -> 0 <= N ->
  (forall r, r * r <> N) ->
  layers_loop cfg true K (range (NUM_LAYERS cfg)) [N; PROJECTION_DIM cfg]
  = Err ReshapeSizeMismatch.
Proof.
  intros HL HD HN Hsq.
  set (m := NUM_LAYERS cfg / 2).
  assert (Hm : 0 <= m < NUM_LAYERS cfg).
  { subst m. split; [apply Z.div_pos; lia|].
    apply Z.div_lt_upper_bound; lia. }
  rewrite (range_split _ m Hm), layers_loop_app.
  rewrite layers_loop_plain; [|lia|].
  - cbn [bind]. rewrite last_repeat by exact [].
    cbn [layers_loop]. unfold layer_step.
    rewrite transformer_shape by lia. cbn [bind andb]. fold m.
    rewrite Z.eqb_refl.
    rewrite insert_token_learner_not_square by assumption. reflexivity.
  - intros i Hi. apply In_range in Hi. fold m. cbn [andb].
    apply Z.eqb_neq. lia.
Qed.

Lemma non_square_token_count_fails_at_build_witness :
  layers_loop notebook_config true 4 (range 4) [60; 128]
  = Err ReshapeSizeMismatch.
Proof.
  apply (non_square_token_count_fails_at_build notebook_config 4 60).
  - simpl; lia.
  - simpl; lia.
  - lia.
  - apply not_square_by_sqrt. discriminate.
Defined.

End BuildClaims.

Section TokenLearnerClaims.
Import Fwd ArrayFacts TokenLearnerFacts ForwardFacts.
Local Open Scope R_scope.

Lemma nth_map_batch {A B : Type} (f : A -> B) (l : list A) (da : A)
    (db : B) (b : nat) :
  (b < length l)%nat -> nth b (map f l) db = f (nth b l da).
Proof.
  intros Hb. rewrite (nth_indep _ db (f da)) by (rewrite length_map; exact Hb).
  apply map_nth.
Qed.

(** C1: on a batch of grids of shape (B, h, w, D) with h * w >= 1 and for
    any token count K, [token_learner] returns an array of shape (B, K, D)
    with output[b,k,d] = (1 / (h*w)) * sum over p of A[b,k,p] * grid[b,p,d],
    where A is the attention-map array computed from the (normalised)
    input and p runs over the flattened spatial positions.  The maps enter
    the product as they are: nothing normalises them over p. *)
Theorem token_learner_weighted_mean {prim : Primitives}
    (p : TokenLearnerParams) (B h w D K : nat)
    (inputs : list (list (list (list R)))) :
  is_batch (is_grid h w D) B inputs -> (1 <= h * w)%nat ->
  let out := map (fun g => token_learner p g K) inputs in
  is_batch (is_mat K D) B out /\
  forall b k d, (b < B)%nat -> (k < K)%nat -> (d < D)%nat ->
    let grid := nth b inputs [] in
    let A := attention_maps p K
               (map (map (LayerNormalization LAYER_NORM_EPS (tl_norm p)))
                  grid) in
    mget (nth b out []) k d
    = 1 / INR (h * w)
      * rsum (h * w) (fun pos =>
          mget A k pos * mget (Reshape_tokens grid) pos d).
Proof.
  intros Hin Hhw out. split.
  - split; [subst out; rewrite length_map; apply Hin|].
    subst out. apply Forall_map.
    apply Forall_impl with (2 := proj2 Hin). intros g Hg.
    apply (token_learner_entries p K h w D g Hg Hhw).
  - intros b k d Hb Hk Hd grid A. subst out.
    rewrite (nth_map_batch _ inputs [] [] b) by (rewrite (proj1 Hin); exact Hb).
    fold grid.
    pose proof (is_batch_nth _ _ _ [] b Hin Hb) as Hg. fold grid in Hg.
    rewrite (proj2 (token_learner_entries p K h w D grid Hg Hhw) k d Hk Hd).
    fold A. unfold Rdiv. ring.
Qed.

Lemma token_learner_weighted_mean_witness :
  let prim := counter_primitives in
  let p := ramp_learner in
  let inputs := [grid_2x3; grid_2x3_b] in
  let out := map (fun g => token_learner p g 3) inputs in
  is_batch (is_mat 3 2) 2 out /\
  forall b k d, (b < 2)%nat -> (k < 3)%nat -> (d < 2)%nat ->
    let grid := nth b inputs [] in
    let A := attention_maps p 3
               (map (map (LayerNormalization LAYER_NORM_EPS (tl_norm p)))
                  grid) in
    mget (nth b out []) k d
    = 1 / INR (2 * 3)
      * rsum (2 * 3) (fun pos =>
          mget A k pos * mget (Reshape_tokens grid) pos d).
Proof.
  intros prim p inputs.
  apply (token_learner_weighted_mean (prim := prim) p 2 2 3 2 3 inputs).
  - unfold inputs, grid_2x3, grid_2x3_b. shape.
  - simpl. lia.
Defined.

(** C2: inside [token_learner] the layer-normalised copy of the grid only
    feeds the attention maps, and the values that are weighted are those
    of the grid as given.  Two grids with the same normalised copy are
    weighted by the same attention maps A, computed from that copy, and
    the output of each is the A-weighted mean of its own raw values:
    nothing of the normalised copy enters the weighted sum. *)
Theorem token_learner_weights_raw_grid {prim : Primitives}
    (p : TokenLearnerParams) (h w D K : nat)
    (g1 g2 : list (list (list R))) (k d : nat) :
  is_grid h w D g1 -> is_grid h w D g2 -> (1 <= h * w)%nat ->
  (k < K)%nat -> (d < D)%nat ->
  map (map (LayerNormalization LAYER_NORM_EPS (tl_norm p))) g1
  = map (map (LayerNormalization LAYER_NORM_EPS (tl_norm p))) g2 ->
  let A := attention_maps p K
             (map (map (LayerNormalization LAYER_NORM_EPS (tl_norm p))) g1) in
  mget (token_learner p g1 K) k d
  = 1 / INR (h * w)
    * rsum (h * w) (fun pos =>
        mget A k pos * mget (Reshape_tokens g1) pos d) /\
  mget (token_learner p g2 K) k d
  = 1 / INR (h * w)
    * rsum (h * w) (fun pos =>
        mget A k pos * mget (Reshape_tokens g2) pos d).
Proof.
  intros H1 H2 Hhw Hk Hd Hnorm A. split.
  - rewrite (proj2 (token_learner_entries p K h w D g1 H1 Hhw) k d Hk Hd).
    fold A. unfold Rdiv. ring.
  - rewrite (proj2 (token_learner_entries p K h w D g2 H2 Hhw) k d Hk Hd).
    rewrite <- Hnorm. fold A. unfold Rdiv. ring.
Qed.

Lemma token_learner_weights_raw_grid_witness :
  let prim := counter_primitives in
  let p := ramp_learner in
  let A := attention_maps p 3
             (map (map (LayerNormalization LAYER_NORM_EPS (tl_norm p)))
                grid_flat_a) in
  mget (token_learner p grid_flat_a 3) 2 1
  = 1 / INR (2 * 2)
    * rsum (2 * 2) (fun pos =>
        mget A 2 pos * mget (Reshape_tokens grid_flat_a) pos 1) /\
  mget (token_learner p grid_flat_b 3) 2 1
  = 1 / INR (2 * 2)
    * rsum (2 * 2) (fun pos =>
        mget A 2 pos * mget (Reshape_tokens grid_flat_b) pos 1).
Proof.
  intros prim p.
  apply (token_learner_weights_raw_grid (prim := prim) p 2 2 2 3
           grid_flat_a grid_flat_b 2 1).
  - unfold grid_flat_a. shape.
  - unfold grid_flat_b. shape.
  - simpl. lia.
  - lia.
  - lia.
  - unfold grid_flat_a, grid_flat_b. cbn [map].
    replace 5 with (1 + 4) by lra. replace 6 with (2 + 4) by lra.
    replace 7 with (3 + 4) by lra. replace 8 with (4 + 4) by lra.
    change [1 + 4; 1 + 4] with (map (fun x => x + 4) [1; 1]).
    change [2 + 4; 2 + 4] with (map (fun x => x + 4) [2; 2]).
    change [3 + 4; 3 + 4] with (map (fun x => x + 4) [3; 3]).
    change [4 + 4; 4 + 4] with (map (fun x => x + 4) [4; 4]).
    rewrite !LayerNormalization_shift. reflexivity.
Defined.

(** A pair of one-cell grids tells the two readings apart: their
    normalised copies are equal, yet the outputs differ, so it is the raw
    values that are weighted. *)
Remark raw_values_reach_the_output :
  let prim := counter_primitives in
  let p := flat_learner 0 in
  map (map (LayerNormalization LAYER_NORM_EPS (tl_norm p))) grid_a
  = map (map (LayerNormalization LAYER_NORM_EPS (tl_norm p))) grid_b /\
  mget (token_learner p grid_a 1) 0 0 = 0 /\
  0 < mget (token_learner p grid_b 1) 0 0.
Proof.
  intros prim p. split; [|split].
  - unfold grid_a, grid_b. cbn [map]. do 2 f_equal.
    replace [1; 1] with (map (fun x => x + 1) [0; 0])
      by (cbn [map]; f_equal; [lra|f_equal; lra]).
    symmetry. apply LayerNormalization_shift.
  - assert (Hg : is_grid 1 1 2 grid_a) by (unfold grid_a; shape).
    rewrite (proj2 (token_learner_entries p 1 1 1 2 grid_a Hg (le_n 1)) 0 0)%nat
      by lia.
    cbn [Nat.mul Nat.add rsum INR].
    change (mget (Reshape_tokens grid_a) 0 0) with 0. field.
  - assert (Hg : is_grid 1 1 2 grid_b) by (unfold grid_b; shape).
    rewrite (proj2 (token_learner_entries p 1 1 1 2 grid_b Hg (le_n 1)) 0 0)%nat
      by lia.
    cbn [Nat.mul Nat.add rsum INR].
    change (mget (Reshape_tokens grid_b) 0 0) with 1.
    match goal with |- 0 < (0 + mget ?A 0 0 * 1) / 1 =>
      assert (H : 0 < mget A 0 0) end.
    { unfold attention_maps, Permute21, Reshape_tokens, Conv2D.
      cbn [rows cols length conv_output_length Nat.sub Nat.add Nat.div
           Nat.divmod fst snd tab seq map concat app mget vget nth grid_b
           hd LayerNormalization].
      apply sigmoid_range. }
    lra.
Qed.
(** C3: every value of the attention maps computed inside [token_learner]
    lies in [0,1], being a value of the sigmoid of the last convolution;
    and nothing makes a map sum to 1 over the spatial positions: on a
    one-cell grid the single value of a map is below 1. *)
Theorem attention_maps_in_unit_interval :
  (forall (prim : Primitives) (p : TokenLearnerParams) (K : nat)
          (inputs : list (list (list R))),
     Forall (Forall in_unit)
       (attention_maps p K
          (map (map (LayerNormalization LAYER_NORM_EPS (tl_norm p)))
             inputs))) /\
  (exists (prim : Primitives) (p : TokenLearnerParams) (K : nat)
          (inputs : list (list (list R))) (k : nat),
     (k < K)%nat /\
     rsum (rows inputs * cols inputs) (fun pos =>
       mget (attention_maps p K
               (map (map (LayerNormalization LAYER_NORM_EPS (tl_norm p)))
                  inputs)) k pos) <> 1).
Proof.
  split.
  - intros prim p K inputs. apply attention_maps_unit.
  - exists counter_primitives, (flat_learner 0), 1%nat, grid_a, O.
    split; [lia|].
    change (rows grid_a * cols grid_a)%nat with 1%nat. cbn [rsum].
    match goal with |- 0 + mget ?A 0 0 <> 1 =>
      assert (H : mget A 0 0 < 1)
        by (apply (mget_entries (fun a => a < 1)); [lra|];
            apply (attention_maps_entries (prim := counter_primitives));
            [lra|]; intros y; apply sigmoid_range)
    end.
    lra.
Qed.

(** C10: every coordinate of the output of [token_learner] is bounded by
    the input: output[b,k,d] lies between min(0, min_p grid[b,p,d]) and
    max(0, max_p grid[b,p,d]), and its magnitude is at most
    max_p |grid[b,p,d]|. *)
Theorem token_learner_bounded {prim : Primitives}
    (p : TokenLearnerParams) (B h w D K : nat)
    (inputs : list (list (list (list R)))) :
  is_batch (is_grid h w D) B inputs -> (1 <= h * w)%nat ->
  forall b k d, (b < B)%nat -> (k < K)%nat -> (d < D)%nat ->
    let X := Reshape_tokens (nth b inputs []) in
    let y := mget (nth b (map (fun g => token_learner p g K) inputs) []) k d in
    min0 (h * w) (fun pos => mget X pos d) <= y
      <= max0 (h * w) (fun pos => mget X pos d) /\
    Rabs y <= max0 (h * w) (fun pos => Rabs (mget X pos d)).
Proof.
  intros Hin Hhw b k d Hb Hk Hd X y.
  pose proof (is_batch_nth _ _ _ [] b Hin Hb) as Hg.
  assert (Ey : y = rsum (h * w) (fun pos =>
                 mget (attention_maps p K
                         (map (map (LayerNormalization LAYER_NORM_EPS
                                      (tl_norm p))) (nth b inputs [])))
                   k pos * mget X pos d) / INR (h * w)).
  { subst y.
    rewrite (nth_map_batch _ inputs [] [] b) by (rewrite (proj1 Hin); exact Hb).
    apply (token_learner_entries p K h w D _ Hg Hhw); assumption. }
  assert (Hunit : forall pos, (pos < h * w)%nat ->
            in_unit (mget (attention_maps p K
                             (map (map (LayerNormalization LAYER_NORM_EPS
                                          (tl_norm p))) (nth b inputs [])))
                       k pos)).
  { intros pos _. apply mget_entries; [unfold in_unit; lra|].
    apply attention_maps_unit. }
  rewrite Ey. split.
  - apply weighted_mean_bounds; [exact Hhw| |exact Hunit|].
    + split; [apply min0_le_0|apply max0_ge_0].
    + intros pos Hpos. split.
      * apply (min0_le _ (fun q => mget X q d) pos Hpos).
      * apply (max0_ge _ (fun q => mget X q d) pos Hpos).
  - apply Rabs_le.
    pose proof (max0_ge_0 (h * w) (fun pos => Rabs (mget X pos d))) as HM.
    apply weighted_mean_bounds; [exact Hhw|lra|exact Hunit|].
    intros pos Hpos.
    pose proof (max0_ge _ (fun q => Rabs (mget X q d)) pos Hpos) as Hle.
    cbv beta in Hle.
    pose proof (Rle_abs (mget X pos d)).
    pose proof (Rle_abs (- mget X pos d)) as Hneg.
    rewrite Rabs_Ropp in Hneg. lra.
Qed.

Lemma token_learner_bounded_witness :
  let prim := counter_primitives in
  let p := flat_learner 0 in
  let X := Reshape_tokens (nth 0 [grid_b] []) in
  let y := mget (nth 0 (map (fun g => token_learner p g 1) [grid_b]) [])
             0 1 in
  min0 (1 * 1) (fun pos => mget X pos 1) <= y
    <= max0 (1 * 1) (fun pos => mget X pos 1) /\
  Rabs y <= max0 (1 * 1) (fun pos => Rabs (mget X pos 1)).
Proof.
  intros prim p.
  apply (token_learner_bounded (prim := prim) p 1 1 1 2 1 [grid_b]).
  - unfold grid_b. shape.
  - simpl. lia.
  - lia.
  - lia.
  - lia.
Defined.

End TokenLearnerClaims.

Section TransformerClaims.
Import Fwd ArrayFacts ForwardFacts.
Local Open Scope R_scope.

(** C4 (as stated, refuted): the attention layer of [transformer] is
    created with [key_dim = PROJECTION_DIM]; with the notebook's values
    each head is 128 wide, not 128 / 4 = 32. *)
Lemma transformer_head_width_is_not_D_over_H :
  key_dim (transformer_attention notebook_config) = 128%nat /\
  key_dim (transformer_attention notebook_config)
  <> Z.to_nat (PROJECTION_DIM notebook_config / NUM_HEADS notebook_config).
Proof.
  split; [reflexivity|]. vm_compute. discriminate.
Qed.

(** C4 (amended): the self-attention of [transformer] has NUM_HEADS
    heads, each of width PROJECTION_DIM (the full embedding width D, not
    D / H): on a sequence of n tokens the per-head queries, keys and
    values have shape (H, n, D).  No mask is applied, every token attends
    to every token: the attention weights have shape (H, n, n), and the
    weight that query i gives to key j is the softmax, over the keys of
    all n tokens, of the scaled dot products of query i with the keys. *)
Theorem transformer_attention_heads (cfg : Config) (p : AttentionParams)
    (n d : nat) (x : list (list R)) :
  (1 <= NUM_HEADS cfg)%Z -> (1 <= PROJECTION_DIM cfg)%Z ->
  is_mat n d x ->
  let L := transformer_attention cfg in
  let H := Z.to_nat (NUM_HEADS cfg) in
  let D := Z.to_nat (PROJECTION_DIM cfg) in
  let q := query_heads L p x in
  let k := key_heads L p x in
  let v := value_heads L p x in
  num_heads L = H /\ key_dim L = D /\
  is_batch (is_mat n D) H q /\
  is_batch (is_mat n D) H k /\
  is_batch (is_mat n D) H v /\
  is_batch (is_mat n n) H (attention_scores L q k) /\
  forall h i j, (h < H)%nat -> (i < n)%nat -> (j < n)%nat ->
    let score := fun j' =>
      dot (map (fun a => a * (1 / sqrt (INR D)))
             (nth i (nth h q []) []))
          (nth j' (nth h k []) []) in
    mget (nth h (attention_scores L q k) []) i j
    = exp (score j) / rsum n (fun j' => exp (score j')).
Proof.
  intros HH HD Hx L H D q k v.
  assert (Hq : is_batch (is_mat n (key_dim L)) (num_heads L) q)
    by (apply project_shape with (d := d); exact Hx).
  assert (Hk : is_batch (is_mat n (key_dim L)) (num_heads L) k)
    by (apply project_shape with (d := d); exact Hx).
  assert (Hv : is_batch (is_mat n (key_dim L)) (num_heads L) v)
    by (apply project_shape with (d := d); exact Hx).
  split; [reflexivity|]. split; [reflexivity|].
  split; [exact Hq|]. split; [exact Hk|]. split; [exact Hv|].
  split; [apply (attention_scores_shape L n q k Hq Hk)|].
  intros h i j Hh Hi Hj score.
  pose proof (is_batch_nth _ _ _ [] h Hq Hh) as [Hql _].
  pose proof (is_batch_nth _ _ _ [] h Hk Hh) as [Hkl _].
  unfold attention_scores. rewrite nth_tab by exact Hh.
  set (row := fun qi : list R =>
         map (fun kj =>
           dot (map (fun a => a * (1 / sqrt (INR (key_dim L)))) qi) kj)
           (nth h k [])).
  unfold mget.
  change (vget (nth i (map (fun qi => softmax (row qi)) (nth h q [])) []) j
          = exp (score j) / rsum n (fun j' => exp (score j'))).
  rewrite (nth_indep _ [] (softmax (row []))) by (rewrite length_map; lia).
  rewrite (map_nth (fun qi => softmax (row qi)) (nth h q []) [] i).
  set (r := row (nth i (nth h q []) [])).
  assert (Hr : length r = n)
    by (subst r row; cbv beta; rewrite length_map; exact Hkl).
  assert (Er : forall j', (j' < n)%nat -> vget r j' = score j').
  { intros j' Hj'. subst r row score. cbv beta. unfold vget.
    apply (nth_map_rows _ (nth h k []) [] j'). lia. }
  unfold softmax, vget at 1.
  rewrite (nth_map_rows _ r 0 j) by lia. rewrite Hr.
  fold (vget r j). rewrite (Er j Hj). f_equal.
  apply rsum_ext. intros j' Hj'. rewrite (Er j' Hj'). reflexivity.
Qed.

Lemma transformer_attention_heads_witness :
  let L := transformer_attention config_small in
  let p := flat_attention 1 in
  let q := query_heads L p tokens_2x2 in
  let k := key_heads L p tokens_2x2 in
  let v := value_heads L p tokens_2x2 in
  num_heads L = Z.to_nat 2 /\ key_dim L = Z.to_nat 2 /\
  is_batch (is_mat 2 (Z.to_nat 2)) (Z.to_nat 2) q /\
  is_batch (is_mat 2 (Z.to_nat 2)) (Z.to_nat 2) k /\
  is_batch (is_mat 2 (Z.to_nat 2)) (Z.to_nat 2) v /\
  is_batch (is_mat 2 2) (Z.to_nat 2) (attention_scores L q k) /\
  forall h i j, (h < Z.to_nat 2)%nat -> (i < 2)%nat -> (j < 2)%nat ->
    let score := fun j' =>
      dot (map (fun a => a * (1 / sqrt (INR (Z.to_nat 2))))
             (nth i (nth h q []) []))
          (nth j' (nth h k []) []) in
    mget (nth h (attention_scores L q k) []) i j
    = exp (score j) / rsum 2 (fun j' => exp (score j')).
Proof.
  intros L p.
  apply (transformer_attention_heads config_small p 2 2 tokens_2x2).
  - simpl. lia.
  - simpl. lia.
  - unfold tokens_2x2. shape.
Defined.

(** C7 (as stated, refuted): the block does not keep the shape of a
    sequence of any width.  With the notebook's values a sequence of 64
    tokens of width 64 is rejected when the model is built: the
    feed-forward ends in PROJECTION_DIM = 128 units, and 128 channels
    cannot be added to the 64 of the residual. *)
Lemma transformer_rejects_other_width :
  Build.transformer notebook_config [64; 64]%Z
  = Build.Err Build.MergeShapeMismatch /\
  Build.transformer notebook_config [64; 64]%Z <> Build.Ok [64; 64]%Z.
Proof.
  split; [reflexivity|discriminate].
Qed.

(** C7 (amended): a transformer block returns a token sequence of the
    shape it was given, for every sequence length n and for the embedding
    width D = PROJECTION_DIM >= 1 (the width that the last layer of the
    feed-forward restores), with at least one attention head: so the
    build computes it, so the forward pass returns it, in training and in
    inference mode; and any number of blocks stacks. *)
Theorem transformer_preserves_shape {prim : Primitives} (cfg : Config)
    (p : TransformerParams) (training : bool) (n : nat)
    (x : list (list R)) (g : rng) :
  (1 <= PROJECTION_DIM cfg)%Z -> (1 <= NUM_HEADS cfg)%Z ->
  is_mat n (Z.to_nat (PROJECTION_DIM cfg)) x ->
  Build.transformer cfg [Z.of_nat n; PROJECTION_DIM cfg]
  = Build.Ok [Z.of_nat n; PROJECTION_DIM cfg] /\
  is_mat n (Z.to_nat (PROJECTION_DIM cfg))
    (fst (transformer cfg p training x g)) /\
  forall (k : Z) (indices : list Z),
    Build.layers_loop cfg false k indices [Z.of_nat n; PROJECTION_DIM cfg]
    = Build.Ok (repeat [Z.of_nat n; PROJECTION_DIM cfg] (length indices)).
Proof.
  intros HD HH Hx. split; [apply BuildFacts.transformer_shape; lia|]. split.
  - apply transformer_mat. exact Hx.
  - intros k indices. apply BuildFacts.layers_loop_plain; [lia|].
    intros i _. reflexivity.
Qed.

Lemma transformer_preserves_shape_witness :
  Build.transformer config_small [Z.of_nat 2; 2%Z]
  = Build.Ok [Z.of_nat 2; 2%Z] /\
  is_mat 2 2
    (fst (transformer (prim := counter_primitives) config_small
            (flat_transformer 1) true tokens_2x2 O)) /\
  forall (k : Z) (indices : list Z),
    Build.layers_loop config_small false k indices [Z.of_nat 2; 2%Z]
    = Build.Ok (repeat [Z.of_nat 2; 2%Z] (length indices)).
Proof.
  apply (transformer_preserves_shape (prim := counter_primitives)
           config_small (flat_transformer 1) true 2 tokens_2x2 O).
  - simpl. lia.
  - simpl. lia.
  - unfold tokens_2x2. shape.
Defined.

(** C9: in inference mode the model is a function of its parameters and
    its input batch alone: the output does not depend on the state of the
    random generator and the call leaves that state as it was, so two
    calls in a row on the same batch return the same output. *)
Theorem inference_is_deterministic {prim : Primitives} (cfg : Config)
    (use_token_learner : bool) (token_learner_units : Z) (p : ModelParams)
    (batch : list (list (list (list R)))) :
  let model := call_on_batch cfg use_token_learner token_learner_units p
                 false batch in
  (forall g1 g2, fst (model g1) = fst (model g2)) /\
  (forall g, snd (model g) = g) /\
  (forall g, let '(y1, g') := model g in
             let '(y2, _) := model g' in
             y1 = y2).
Proof.
  intros model.
  destruct (call_on_batch_inference cfg use_token_learner
              token_learner_units p batch) as [y Hy].
  fold model in Hy.
  split; [|split].
  - intros g1 g2. rewrite !Hy. reflexivity.
  - intros g. rewrite Hy. reflexivity.
  - intros g. rewrite Hy. rewrite Hy. reflexivity.
Qed.

(** In training mode the random generator is used: a dropout layer
    advances it. *)
Remark Dropout_training_draws :
  ~ deterministic (prim := counter_primitives)
      (Dropout (1 / 10) true [1]).
Proof.
  intros [a H]. specialize (H O). unfold Dropout in H.
  cbn [uniform counter_primitives] in H.
  inversion H.
Qed.

End TransformerClaims.

(** * Further properties of the build *)

Section BuildProperties.
Import Build BuildFacts.
Local Open Scope Z_scope.

(** X1: without the TokenLearner ([use_token_learner=False]) the model
    builds for every valid configuration (positive sizes, a patch size
    P >= 1 that fits the image), the sequence keeps its
    (IMAGE_SIZE // P)^2 tokens through every block, and the output has
    NUM_CLASSES entries. *)
Theorem plain_vit_keeps_token_count (cfg : Config) (K : Z) :
  1 <= fst (fst (INPUT_SHAPE cfg)) -> 1 <= snd (fst (INPUT_SHAPE cfg)) ->
  1 <= snd (INPUT_SHAPE cfg) ->
  1 <= PATCH_SIZE cfg -> PATCH_SIZE cfg <= IMAGE_SIZE cfg ->
  1 <= PROJECTION_DIM cfg -> 1 <= NUM_HEADS cfg ->
  0 <= NUM_LAYERS cfg -> 1 <= NUM_CLASSES cfg ->
  let N := (IMAGE_SIZE cfg / PATCH_SIZE cfg)
           * (IMAGE_SIZE cfg / PATCH_SIZE cfg) in
  create_vit_classifier cfg false K
  = Ok {| encoded_in := [N; PROJECTION_DIM cfg];
          after_layer := repeat [N; PROJECTION_DIM cfg]
                           (Z.to_nat (NUM_LAYERS cfg));
          outputs := [NUM_CLASSES cfg] |}.
Proof.
  intros Hih Hiw Hic HP HI HD HH HL HC N.
  assert (Hn : 1 <= IMAGE_SIZE cfg / PATCH_SIZE cfg)
    by (apply Z.div_le_lower_bound; lia).
  unfold create_vit_classifier.
  destruct (INPUT_SHAPE cfg) as [[ih iw] ic].
  unfold data_augmentation, Rescaling, Resizing, RandomCrop, RandomFlip.
  cbn [bind fst].
  destruct (Z.leb_spec (IMAGE_SIZE cfg) 0); [lia|]. cbn [orb bind].
  rewrite projected_patches_shape by lia. cbn [bind].
  unfold position_embedding, Embedding, NUM_PATCHES.
  rewrite Z.pow_2_r. fold N.
  destruct (Z.leb_spec N 0); [subst N; nia|].
  destruct (Z.leb_spec (PROJECTION_DIM cfg) 0); [lia|].
  cbn [orb bind app].
  rewrite broadcast_same. cbn [bind]. unfold Dropout.
  rewrite layers_loop_plain by (try lia; intros i _; reflexivity).
  cbn [bind].
  unfold range. rewrite length_map, length_seq.
  rewrite last_repeat by exact [].
  unfold LayerNormalization. cbn [GlobalAvgPool1D bind]. unfold Dense.
  destruct (Z.ltb_spec (NUM_CLASSES cfg) 0); [lia|]. reflexivity.
Qed.

Lemma plain_vit_keeps_token_count_witness :
  create_vit_classifier notebook_config false 4
  = Ok {| encoded_in := [48 / 6 * (48 / 6); 128];
          after_layer := repeat [48 / 6 * (48 / 6); 128] (Z.to_nat 4);
          outputs := [10] |}.
Proof.
  apply (plain_vit_keeps_token_count notebook_config 4); simpl; lia.
Defined.

(** X2: in an otherwise valid configuration, an image smaller than one
    patch (1 <= IMAGE_SIZE < PATCH_SIZE) is rejected while the model is
    built, with or without the TokenLearner: the patch projection has no
    output position. *)
Theorem image_smaller_than_patch_fails (cfg : Config) (use : bool) (K : Z) :
  1 <= fst (fst (INPUT_SHAPE cfg)) -> 1 <= snd (fst (INPUT_SHAPE cfg)) ->
  1 <= snd (INPUT_SHAPE cfg) -> 1 <= PROJECTION_DIM cfg ->
  1 <= IMAGE_SIZE cfg < PATCH_SIZE cfg ->
  create_vit_classifier cfg use K = Err ConvOutputNonPositive.
Proof.
  intros Hih Hiw Hic HD HI. unfold create_vit_classifier.
  destruct (INPUT_SHAPE cfg) as [[ih iw] ic].
  unfold data_augmentation, Rescaling, Resizing, RandomCrop, RandomFlip.
  cbn [bind fst].
  destruct (Z.leb_spec (IMAGE_SIZE cfg) 0); [lia|]. cbn [orb bind].
  rewrite projected_patches_too_small by lia. reflexivity.
Qed.

Lemma image_smaller_than_patch_fails_witness :
  create_vit_classifier config_tiny_image true 4 = Err ConvOutputNonPositive.
Proof.
  apply (image_smaller_than_patch_fails config_tiny_image true 4);
    simpl; lia.
Defined.

(** X3: with an embedding width D >= 1 and a table of at least two
    positions, [position_embedding] accepts a sequence of NUM_PATCHES
    tokens of width D and keeps its shape; a sequence of one token is not
    rejected but stretched to NUM_PATCHES tokens by broadcasting; a
    sequence of any other length n >= 1 is rejected. *)
Theorem position_embedding_lengths (cfg : Config) (n : Z) :
  1 <= PROJECTION_DIM cfg -> 2 <= NUM_PATCHES cfg -> 1 <= n ->
  (n = NUM_PATCHES cfg ->
   position_embedding cfg [n; PROJECTION_DIM cfg]
   = Ok [n; PROJECTION_DIM cfg]) /\
  (position_embedding cfg [1; PROJECTION_DIM cfg]
   = Ok [NUM_PATCHES cfg; PROJECTION_DIM cfg]) /\
  (n <> 1 -> n <> NUM_PATCHES cfg ->
   position_embedding cfg [n; PROJECTION_DIM cfg]
   = Err MergeShapeMismatch).
Proof.
  intros HD HNP Hn. unfold position_embedding, Embedding.
  destruct (Z.leb_spec (NUM_PATCHES cfg) 0); [lia|].
  destruct (Z.leb_spec (PROJECTION_DIM cfg) 0); [lia|].
  cbn [orb bind app].
  split; [|split].
  - intros ->. apply broadcast_same.
  - cbn [broadcast bind]. change (1 =? 1) with true. cbn [bind].
    rewrite Z.eqb_refl.
    destruct (PROJECTION_DIM cfg =? 1); reflexivity.
  - intros H1 Hne. cbn [broadcast bind].
    destruct (Z.eqb_spec n 1); [contradiction|].
    destruct (Z.eqb_spec (NUM_PATCHES cfg) 1); [lia|].
    destruct (Z.eqb_spec n (NUM_PATCHES cfg)); [contradiction|].
    reflexivity.
Qed.

Lemma position_embedding_lengths_witness :
  position_embedding notebook_config [64; 128] = Ok [64; 128] /\
  position_embedding notebook_config [1; 128] = Ok [64; 128] /\
  position_embedding notebook_config [49; 128] = Err MergeShapeMismatch.
Proof.
  assert (HD : 1 <= PROJECTION_DIM notebook_config) by (simpl; lia).
  assert (HN : 2 <= NUM_PATCHES notebook_config) by (vm_compute; discriminate).
  destruct (position_embedding_lengths notebook_config 64 HD HN)
    as (A & B & _); [lia|].
  destruct (position_embedding_lengths notebook_config 49 HD HN)
    as (_ & _ & C); [lia|].
  split; [apply A; reflexivity|]. split; [exact B|].
  apply C; discriminate.
Defined.

(** X4: [token_learner] itself builds on every non-empty grid, square or
    not, and returns K tokens of the grid's width; only the reshape in
    [create_vit_classifier] asks for a square. *)
Theorem token_learner_builds_on_any_grid (h w c K : Z) :
  1 <= h -> 1 <= w -> 1 <= c -> 1 <= K ->
  token_learner [h; w; c] K = Ok [K; c].
Proof.
  intros Hh Hw Hc HK. apply token_learner_shape; assumption.
Qed.

Lemma token_learner_builds_on_any_grid_witness :
  token_learner [3; 5; 128] 4 = Ok [4; 128].
Proof.
  apply (token_learner_builds_on_any_grid 3 5 128 4); lia.
Defined.

Lemma last_units_default (u : Z) (rest : list Z) (d1 d2 : Z) :
  last (u :: rest) d1 = last (u :: rest) d2.
Proof.
  revert u. induction rest as [|v rest IH]; intros u; [reflexivity|].
  change (last (v :: rest) d1 = last (v :: rest) d2). apply IH.
Qed.

(** X5: for hidden layers of positive width, [mlp] on a token sequence
    keeps the number of tokens and ends with the width of its last hidden
    layer; with no hidden layer it returns its input unchanged. *)
Theorem mlp_output_width (n d : Z) (hidden_units : list Z) :
  1 <= n -> 1 <= d -> Forall (fun units => 1 <= units) hidden_units ->
  mlp [n; d] hidden_units = Ok [n; last hidden_units d].
Proof.
  intros Hn Hd Hu. clear Hd. revert d.
  induction Hu as [|u rest Hu1 _ IH]; intros d.
  - reflexivity.
  - cbn [mlp]. unfold Dense.
    destruct (Z.ltb_spec u 0); [lia|].
    cbn [with_last_dim bind]. unfold Dropout. rewrite IH.
    destruct rest as [|v rest]; [reflexivity|].
    change (last (u :: v :: rest) d) with (last (v :: rest) d).
    rewrite (last_units_default v rest u d). reflexivity.
Qed.

Lemma mlp_output_width_witness :
  mlp [64; 128] [256; 128] = Ok [64; last [256; 128] 128] /\
  mlp [64; 128] [] = Ok [64; last [] 128].
Proof.
  split.
  - apply (mlp_output_width 64 128 [256; 128]); [lia|lia|].
    repeat constructor; lia.
  - apply (mlp_output_width 64 128 []); [lia|lia|constructor].
Defined.

End BuildProperties.

Section ForwardProperties.
Import Fwd ArrayFacts TokenLearnerFacts ForwardFacts MoreFacts.
Local Open Scope R_scope.

(** X6: the two reshapes that move between a token sequence and a grid
    are inverse to each other: flattening an (h, w, d) grid and cutting
    the sequence into h rows of w gives the grid back, and cutting a
    sequence of h * w tokens into a grid and flattening it gives the
    sequence back, token order kept. *)
Theorem grid_sequence_round_trip (h w d : nat)
    (g : list (list (list R))) (m : list (list R)) :
  is_grid h w d g -> is_mat (h * w) d m ->
  Reshape_grid h w (Reshape_tokens g) = g /\
  Reshape_tokens (Reshape_grid h w m) = m.
Proof.
  intros Hg Hm. split.
  - apply (Reshape_grid_tokens h w d g Hg).
  - apply (Reshape_tokens_grid h w d m Hm).
Qed.

Lemma grid_sequence_round_trip_witness :
  Reshape_grid 2 2 (Reshape_tokens grid_2x2) = grid_2x2 /\
  Reshape_tokens (Reshape_grid 2 2 tokens_4x2) = tokens_4x2.
Proof.
  apply (grid_sequence_round_trip 2 2 2 grid_2x2 tokens_4x2).
  - unfold grid_2x2. shape.
  - unfold tokens_4x2. shape.
Defined.

(** X7: at the insertion index the loop of [create_vit_classifier] hands
    the tokens leaving the block to the TokenLearner in their order: for a
    sequence of s * s tokens the step returns K tokens of the same width,
    and summary token k is the mean over the positions p of
    A[k,p] * token[p], the tokens being those the block returned. *)
Theorem reduction_at_insertion {prim : Primitives} (cfg : Config)
    (p : ModelParams) (K i : Z) (training : bool) (s : nat)
    (x : list (list R)) (g : rng) :
  i = (NUM_LAYERS cfg / 2)%Z -> (1 <= s)%nat ->
  is_mat (s * s) (Z.to_nat (PROJECTION_DIM cfg)) x ->
  let e := fst (transformer cfg (blocks p (Z.to_nat i)) training x g) in
  let out := fst (layer_step cfg p true K training i x g) in
  let A := attention_maps (learner p) (Z.to_nat K)
             (map (map (LayerNormalization LAYER_NORM_EPS
                          (tl_norm (learner p))))
                (Reshape_grid s s e)) in
  is_mat (Z.to_nat K) (Z.to_nat (PROJECTION_DIM cfg)) out /\
  forall k d, (k < Z.to_nat K)%nat ->
    (d < Z.to_nat (PROJECTION_DIM cfg))%nat ->
    mget out k d
    = 1 / INR (s * s)
      * rsum (s * s) (fun pos => mget A k pos * mget e pos d).
Proof.
  intros Hi Hs Hx e out A.
  pose proof (transformer_mat cfg (blocks p (Z.to_nat i)) training _ x g Hx)
    as He. fold e in He.
  assert (Eout : out = token_learner (learner p) (Reshape_grid s s e)
                         (Z.to_nat K)).
  { subst out e. unfold layer_step, bind.
    destruct (transformer cfg (blocks p (Z.to_nat i)) training x g)
      as [e' g1] eqn:Et.
    cbn [fst] in *. rewrite Hi, Z.eqb_refl. cbn [andb]. unfold ret.
    cbn [fst]. rewrite (proj1 He), Nat.sqrt_square. reflexivity. }
  pose proof (Reshape_grid_shape s s _ e He) as Hg.
  assert (Hss : (1 <= s * s)%nat) by nia.
  destruct (token_learner_entries (learner p) (Z.to_nat K) s s
              (Z.to_nat (PROJECTION_DIM cfg)) _ Hg Hss) as [Hshape Hent].
  rewrite Eout. split; [exact Hshape|].
  intros k d Hk Hd. rewrite (Hent k d Hk Hd). fold A.
  rewrite (Reshape_tokens_grid s s _ e He). unfold Rdiv. ring.
Qed.

Lemma reduction_at_insertion_witness :
  let prim := counter_primitives in
  let p := flat_model 1 in
  let e := fst (transformer config_small (blocks p (Z.to_nat 1)) true
                  tokens_4x2 O) in
  let out := fst (layer_step config_small p true 1 true 1 tokens_4x2 O) in
  let A := attention_maps (learner p) (Z.to_nat 1)
             (map (map (LayerNormalization LAYER_NORM_EPS
                          (tl_norm (learner p))))
                (Reshape_grid 2 2 e)) in
  is_mat (Z.to_nat 1) (Z.to_nat 2) out /\
  forall k d, (k < Z.to_nat 1)%nat -> (d < Z.to_nat 2)%nat ->
    mget out k d
    = 1 / INR (2 * 2)
      * rsum (2 * 2) (fun pos => mget A k pos * mget e pos d).
Proof.
  intros prim p.
  apply (reduction_at_insertion (prim := prim) config_small p 1 1 true 2
           tokens_4x2 O).
  - reflexivity.
  - lia.
  - unfold tokens_4x2. shape.
Defined.

(** The model output is the softmax of the classifier's dense layer. *)
Lemma forward_output {prim : Primitives} (cfg : Config)
    (use : bool) (K : Z) (p : ModelParams) (training : bool)
    (inputs : list (list (list R))) (g : rng) :
  exists rep,
    fst (forward cfg use K p training inputs g)
    = softmax (Dense (Z.to_nat (NUM_CLASSES cfg)) linear (classifier p) rep).
Proof.
  unfold forward, bind.
  destruct (data_augmentation cfg training inputs g) as [a g1].
  destruct (encoded_patches cfg p training a g1) as [e g2].
  destruct (layers_loop _ _ _ _ _ _ e g2) as [e' g3].
  unfold ret. cbn [fst]. eexists. reflexivity.
Qed.

(** X8: for a configuration with which the model builds (with at least
    one head and one class), whatever the parameters, the mode and the
    state of the random generator, the classifier called on an image of
    shape INPUT_SHAPE returns a probability vector over the classes (in
    real arithmetic): NUM_CLASSES entries, each in [0, 1], summing to
    1. *)
Theorem classifier_output_is_distribution {prim : Primitives}
    (cfg : Config) (use : bool) (K : Z) (p : ModelParams) (training : bool)
    (inputs : list (list (list R))) (g : rng) :
  Build.is_ok (Build.create_vit_classifier cfg use K) = true ->
  (1 <= NUM_HEADS cfg)%Z -> (1 <= NUM_CLASSES cfg)%Z ->
  has_input_shape cfg inputs = true ->
  exists y,
    fst (create_vit_classifier cfg use K p training inputs g) = Some y /\
    length y = Z.to_nat (NUM_CLASSES cfg) /\
    (forall c, (c < Z.to_nat (NUM_CLASSES cfg))%nat -> 0 <= vget y c <= 1) /\
    rsum (Z.to_nat (NUM_CLASSES cfg)) (vget y) = 1.
Proof.
  intros _ _ HC Hin.
  destruct (forward_output cfg use K p training inputs g) as [rep Hy].
  exists (fst (forward cfg use K p training inputs g)).
  split.
  - unfold create_vit_classifier. rewrite Hin. unfold bind.
    destruct (forward cfg use K p training inputs g) as [y g1].
    reflexivity.
  - rewrite Hy.
    set (z := Dense (Z.to_nat (NUM_CLASSES cfg)) linear (classifier p) rep).
    assert (Hz : length z = Z.to_nat (NUM_CLASSES cfg))
      by (subst z; unfold Dense; apply tab_length).
    split; [rewrite softmax_length; exact Hz|]. split.
    + intros c Hc. rewrite <- Hz in Hc. split.
      * apply Rlt_le, softmax_pos. exact Hc.
      * apply softmax_le_1. exact Hc.
    + rewrite <- Hz. apply softmax_sum. lia.
Qed.

Lemma classifier_output_is_distribution_witness :
  exists y,
    fst (create_vit_classifier (prim := counter_primitives) config_small
           true 1 (flat_model 1) true image_4x4 O) = Some y /\
    length y = Z.to_nat 2 /\
    (forall c, (c < Z.to_nat 2)%nat -> 0 <= vget y c <= 1) /\
    rsum (Z.to_nat 2) (vget y) = 1.
Proof.
  apply (classifier_output_is_distribution (prim := counter_primitives)
           config_small true 1 (flat_model 1) true image_4x4 O).
  - reflexivity.
  - simpl. lia.
  - simpl. lia.
  - reflexivity.
Defined.

(** X9: in the self-attention of [transformer] the weights that a query
    token gives to the tokens of the sequence sum to 1, in every head: the
    context of a token is a convex combination of the value vectors. *)
Theorem attention_weights_sum_to_one (cfg : Config) (p : AttentionParams)
    (n d : nat) (x : list (list R)) (h i : nat) :
  is_mat n d x -> (1 <= n)%nat ->
  (h < Z.to_nat (NUM_HEADS cfg))%nat -> (i < n)%nat ->
  let L := transformer_attention cfg in
  let W := attention_scores L (query_heads L p x) (key_heads L p x) in
  rsum n (fun j => mget (nth h W []) i j) = 1.
Proof.
  intros Hx Hn Hh Hi L W.
  assert (Hq : is_batch (is_mat n (key_dim L)) (num_heads L)
                 (query_heads L p x))
    by (apply project_shape with (d := d); exact Hx).
  assert (Hk : is_batch (is_mat n (key_dim L)) (num_heads L)
                 (key_heads L p x))
    by (apply project_shape with (d := d); exact Hx).
  pose proof (is_batch_nth _ _ _ [] h Hq Hh) as [Hql _].
  pose proof (is_batch_nth _ _ _ [] h Hk Hh) as [Hkl _].
  subst W. unfold attention_scores.
  rewrite nth_tab by exact Hh. unfold mget.
  set (row := fun qi : list R =>
         map (fun kj =>
           dot (map (fun a => a * (1 / sqrt (INR (key_dim L)))) qi) kj)
           (nth h (key_heads L p x) [])).
  change (rsum n (fun j =>
            vget (nth i (map (fun qi => softmax (row qi))
                           (nth h (query_heads L p x) [])) []) j) = 1).
  rewrite (nth_indep _ [] (softmax (row [])))
    by (rewrite length_map; lia).
  rewrite (map_nth (fun qi => softmax (row qi))
             (nth h (query_heads L p x) []) [] i).
  set (r := row (nth i (nth h (query_heads L p x) []) [])).
  assert (Hr : length r = n)
    by (subst r row; cbv beta; rewrite length_map; exact Hkl).
  rewrite <- Hr. apply softmax_sum. lia.
Qed.

Lemma attention_weights_sum_to_one_witness :
  let L := transformer_attention config_small in
  let p := flat_attention 1 in
  let W := attention_scores L (query_heads L p tokens_2x2)
             (key_heads L p tokens_2x2) in
  rsum 2 (fun j => mget (nth 1 W []) 0 j) = 1.
Proof.
  intros L p.
  apply (attention_weights_sum_to_one config_small p 2 2 tokens_2x2 1 0).
  - unfold tokens_2x2. shape.
  - lia.
  - simpl. lia.
  - lia.
Defined.

End ForwardProperties.

Section BlockProperties.
Import Fwd ArrayFacts TokenLearnerFacts ForwardFacts MoreFacts.
Local Open Scope R_scope.

Lemma mapM_Dropout_inference {prim : Primitives} (rate : R)
    (x : list (list R)) (g : rng) :
  mapM (Dropout rate false) x g = (x, g).
Proof.
  induction x as [|v x IH]; [reflexivity|].
  cbn [mapM]. unfold bind. cbn [Dropout]. unfold ret at 1.
  rewrite IH. reflexivity.
Qed.

Lemma concat_singletons {A : Type} (l : list A) :
  concat (map (fun v => [v]) l) = l.
Proof.
  induction l as [|a l IH]; [reflexivity|].
  cbn [map concat app]. rewrite IH. reflexivity.
Qed.

(** X10: in inference mode [mlp] is position-wise: it transforms every
    token on its own, so its output is the sequence of the outputs it
    gives on the one-token sequences. *)
Theorem mlp_is_position_wise {prim : Primitives} (p : nat -> DenseParams)
    (rate : R) (hidden_units : list Z) (index : nat) (x : list (list R))
    (g : rng) :
  fst (mlp p false index x rate hidden_units g)
  = concat (map (fun token =>
                   fst (mlp p false index [token] rate hidden_units g)) x).
Proof.
  revert index x.
  induction hidden_units as [|units rest IH]; intros index x.
  - cbn [mlp]. unfold ret. cbn [fst]. symmetry. apply concat_singletons.
  - cbn [mlp]. unfold bind. rewrite mapM_Dropout_inference.
    rewrite IH, map_map. reflexivity.
Qed.

(** A dropout layer maps zeros to zeros, in both modes. *)
Lemma Dropout_zeros {prim : Primitives} (rate : R) (training : bool)
    (n d : nat) (m : list (list R)) (g : rng) :
  is_mat n d m -> (forall i j, mget m i j = 0) ->
  forall i j, mget (fst (mapM (Dropout rate training) m g)) i j = 0.
Proof.
  intros Hm H0.
  set (Z := fun v : list R => forall j, vget v j = 0).
  destruct (mapM_shape Z Z (Dropout rate training)) with (l := m) (g := g)
    as [_ Hq].
  - intros v g' Hv j. unfold Dropout. destruct training; [|apply Hv].
    destruct (uniform g') as [u g'']. cbn [fst]. unfold vget.
    destruct (Nat.lt_ge_cases j (length v)) as [Hj|Hj].
    + rewrite nth_tab by exact Hj.
      destruct (Rlt_dec (u j) rate); [reflexivity|].
      pose proof (Hv j) as E. unfold vget in E. rewrite E.
      unfold Rdiv. ring.
    + rewrite nth_overflow by (rewrite tab_length; exact Hj). reflexivity.
  - apply Forall_forall. intros v Hin j.
    destruct (In_nth _ _ [] Hin) as (i & Hi & <-). apply (H0 i j).
  - intros i j. apply (mget_entries (fun a => a = 0)); [reflexivity|].
    apply Forall_impl with (2 := Hq). intros v Hv.
    apply Forall_forall. intros a Ha.
    destruct (In_nth _ _ 0 Ha) as (j' & _ & <-). apply (Hv j').
Qed.

(** X11: the residual connections make a block whose attention output
    projection and last feed-forward layer are zero the identity on token
    sequences of the embedding width, in training and in inference mode
    (GELU maps 0 to 0). *)
Theorem transformer_is_identity_when_zeroed {prim : Primitives}
    (cfg : Config) (p : TransformerParams) (training : bool) (n : nat)
    (x : list (list R)) (g : rng) :
  is_mat n (Z.to_nat (PROJECTION_DIM cfg)) x ->
  gelu 0 = 0 ->
  (forall h e d, Wo (attention p) h e d = 0) ->
  (forall d, bo (attention p) d = 0) ->
  (forall d u, dkernel (mlp_dense p 1) d u = 0) ->
  (forall u, dbias (mlp_dense p 1) u = 0) ->
  fst (transformer cfg p training x g) = x.
Proof.
  intros Hx Hgelu HWo Hbo Hk Hb.
  set (D := Z.to_nat (PROJECTION_DIM cfg)) in *.
  unfold transformer, bind.
  set (x1 := map (LayerNormalization LAYER_NORM_EPS (norm1 p)) x).
  assert (Hx1 : is_mat n D x1)
    by (apply LayerNormalization_mat; exact Hx).
  pose proof (MultiHeadAttention_shape (transformer_attention cfg)
                (attention p) training n D x1 x1 g Hx1) as Ha.
  assert (Ha0 : forall i j, (i < n)%nat -> (j < D)%nat ->
            mget (fst (MultiHeadAttention (transformer_attention cfg)
                         (attention p) training x1 x1 g)) i j = 0).
  { intros i j Hi Hj. unfold MultiHeadAttention, bind.
    destruct (mapM _ _ g) as [scores g']. unfold ret. cbn [fst].
    rewrite (proj1 Hx1), (is_mat_width _ _ _ Hx1) by lia.
    unfold mget. rewrite nth_tab by exact Hi. unfold vget.
    rewrite nth_tab by exact Hj.
    rewrite rsum_zero; [rewrite Hbo; ring|].
    intros h _. apply rsum_zero. intros e _. rewrite HWo. ring. }
  destruct (MultiHeadAttention _ _ _ _ _ g) as [a g1]. cbn [fst] in Ha, Ha0.
  rewrite (Add_zeros n D a x Ha Hx Ha0).
  set (x3 := map (LayerNormalization LAYER_NORM_EPS (norm2 p)) x).
  assert (Hx3 : is_mat n D x3)
    by (apply LayerNormalization_mat; exact Hx).
  unfold MLP_UNITS. cbn [mlp]. unfold bind.
  pose proof (Dropout_mat (1 / 10) training _ _ _ g1
                (Dense_mat (Z.to_nat (PROJECTION_DIM cfg * 2)) gelu
                   (mlp_dense p 0) _ _ _ Hx3)) as Hy.
  destruct (mapM _ _ g1) as [y g2]. cbn [fst] in Hy.
  set (z := map (Dense (Z.to_nat (PROJECTION_DIM cfg)) gelu
                   (mlp_dense p 1)) y).
  assert (Hzm : is_mat n D z) by (apply (Dense_mat _ _ _ _ _ _ Hy)).
  assert (Hz0 : forall i j, mget z i j = 0).
  { intros i j. apply (mget_entries (fun a => a = 0)); [reflexivity|].
    subst z. apply Forall_map, Forall_forall. intros v _.
    unfold Dense. apply Forall_tab. intros u _.
    rewrite rsum_zero; [rewrite Hb, Rplus_0_l; exact Hgelu|].
    intros d _. rewrite Hk. ring. }
  pose proof (Dropout_zeros (1 / 10) training n D z g2 Hzm Hz0) as Hd0.
  pose proof (Dropout_mat (1 / 10) training n D z g2 Hzm) as Hdm.
  destruct (mapM _ z g2) as [x4 g3]. cbn [fst] in Hd0, Hdm.
  unfold ret. cbn [fst].
  apply (Add_zeros n D x4 x Hdm Hx). intros i j _ _. apply Hd0.
Qed.

Lemma transformer_is_identity_when_zeroed_witness :
  fst (transformer (prim := counter_primitives) config_small
         zeroed_transformer true tokens_2x2 O) = tokens_2x2.
Proof.
  apply (transformer_is_identity_when_zeroed (prim := counter_primitives)
           config_small zeroed_transformer true 2 tokens_2x2 O).
  - unfold tokens_2x2. shape.
  - unfold gelu, counter_primitives, gelu_sigmoid. ring.
  - reflexivity.
  - reflexivity.
  - reflexivity.
  - reflexivity.
Defined.

(** X12: [position_embedding] adds row i of its table to token i, for a
    sequence with as many tokens as the table has rows: the encoding of a
    token depends on its position in the sequence only. *)
Theorem position_embedding_adds_table (table : nat -> nat -> R)
    (x : list (list R)) (N D : nat) :
  is_mat N D x ->
  let out := position_embedding table x N D in
  is_mat N D out /\
  forall i d, (i < N)%nat -> (d < D)%nat ->
    mget out i d = mget x i d + table i d.
Proof.
  intros Hx out. subst out. unfold position_embedding.
  fold (tab N (fun pos => tab D (fun d => table pos d))).
  assert (He : is_mat N D (tab N (fun pos => tab D (fun d => table pos d))))
    by (apply is_mat_tab; intros; apply tab_length).
  split; [apply bmat_same_shape; assumption|].
  intros i d Hi Hd.
  rewrite (bmat_get Rplus N D _ _ i d Hx He Hi Hd). f_equal.
  unfold mget. rewrite nth_tab by exact Hi. unfold vget.
  rewrite nth_tab by exact Hd. reflexivity.
Qed.

Lemma position_embedding_adds_table_witness :
  let table := fun i d => INR (10 * i + d) in
  let out := position_embedding table tokens_2x2 2 2 in
  is_mat 2 2 out /\
  forall i d, (i < 2)%nat -> (d < 2)%nat ->
    mget out i d = mget tokens_2x2 i d + table i d.
Proof.
  intros table.
  apply (position_embedding_adds_table table tokens_2x2 2 2).
  unfold tokens_2x2. shape.
Defined.

End BlockProperties.
